(** * The trunk of [ProteinTransformerAF3]

    A shallow embedding of [proteinfoundation/nn/protein_transformer.py]:
    the attention-and-transition block, the pair-representation updater,
    the register augmentation and the forward pass of the trunk
    orchestrator, with the properties of masking, register round trip,
    pair-update scheduling and configuration reconciliation.

    Conventions of the embedding.

    - Tensors are nested lists, outermost axis first: a token tensor
      [[b, n, d]] is a list of samples, each a list of positions, each a
      vector.  Entries range over an abstract scalar structure with exact
      arithmetic ([Scalar]); rounding, infinities and NaN are not modelled.
    - Operators defined outside the file (feature factories, adaptive layer
      norm and output scale, pair-bias attention, triangular updates, the
      openfold pair transition, SwiGLU) and every layer normalisation are
      uninterpreted functions stored in the module records; the theorems
      quantify over them.  [torch.nn.Linear] is interpreted.
    - Learned parameters and operators are supplied to the constructors by a
      [Params] record, as the random initialisation supplies them in torch.
    - A Python exception is a [Raise] result.  The faults modelled are those
      of the orchestration itself: attribute access or indexing on [None],
      list indexing out of range and division by zero.  A torch operation on
      tensors of non-conformable shapes raises as well; this is not
      modelled (the list operations truncate), and the statements that
      depend on shapes say so.
    - The forward pass keeps a log of sub-module calls ([Event]), so that
      statements about which module runs, when and on what can be made. *)

From Stdlib Require Import String List ZArith Lia Bool.
Import ListNotations.
Local Open Scope Z_scope.

(** ** Scalars *)

Class Scalar : Type := {
  num : Type;
  zero : num;
  one : num;
  add : num -> num -> num;
  mul : num -> num -> num;
  (* torch.mean over the flattened entries *)
  mean : list num -> num;
  mul_zero_r : forall x, mul x zero = zero;
  mul_one_r : forall x, mul x one = x;
  add_zero_r : forall x, add x zero = x;
  add_zero_l : forall x, add zero x = x
}.

(** The integers, for running the model on concrete inputs. *)
#[export] Instance Scalar_Z : Scalar := {|
  num := Z;
  zero := 0;
  one := 1;
  add := Z.add;
  mul := Z.mul;
  mean := fun l => fold_right Z.add 0 l / Z.of_nat (length l);
  mul_zero_r := Z.mul_0_r;
  mul_one_r := Z.mul_1_r;
  add_zero_r := Z.add_0_r;
  add_zero_l := Z.add_0_l
|}.

(** ** Lists as tensor axes *)

Section ListOps.
Context {A B C : Type}.

(* position-wise combination of two axes of equal length *)
Fixpoint map2 (f : A -> B -> C) (l1 : list A) (l2 : list B) : list C :=
  match l1, l2 with
  | a :: l1', b :: l2' => f a b :: map2 f l1' l2'
  | _, _ => []
  end.

Lemma nth_error_map2 (f : A -> B -> C) l1 l2 i :
  nth_error (map2 f l1 l2) i =
  match nth_error l1 i, nth_error l2 i with
  | Some a, Some b => Some (f a b)
  | _, _ => None
  end.
Proof.
  revert l2 i; induction l1 as [|a l1 IH]; intros [|b l2] [|i]; simpl; auto.
  destruct (nth_error l1 i); reflexivity.
Qed.

Lemma length_map2 (f : A -> B -> C) l1 l2 :
  length (map2 f l1 l2) = Nat.min (length l1) (length l2).
Proof.
  revert l2; induction l1 as [|a l1 IH]; intros [|b l2]; simpl; auto.
Qed.

End ListOps.

(* [f 0; f 1; ...; f (n-1)] *)
Definition tabulate {A : Type} (n : nat) (f : nat -> A) : list A :=
  map f (seq 0 n).

Lemma length_tabulate {A : Type} n (f : nat -> A) : length (tabulate n f) = n.
Proof. unfold tabulate. rewrite length_map, length_seq. reflexivity. Qed.

(* range(n) for a Python integer n *)
Definition range (n : Z) : list Z := map Z.of_nat (seq 0 (Z.to_nat n)).

(** ** Tensors *)

Section Tensors.
Context {SC : Scalar}.

Definition Vec : Type := list num.
Definition Tok : Type := list (list Vec).          (* [b, n, d] *)
Definition Pair : Type := list (list (list Vec)).   (* [b, n, n, p] *)
Definition Mask : Type := list (list bool).         (* [b, n] *)
Definition PairMask : Type := list (list (list bool)). (* [b, n, n] *)

(* a boolean used as a factor: True is 1, False is 0 *)
Definition of_bool (m : bool) : num := if m then one else zero.

Definition scale (v : Vec) (m : bool) : Vec := map (fun a => mul a (of_bool m)) v.

(* x * mask[..., None] for x of shape [b, n, d] and mask of shape [b, n] *)
Definition mul_mask (x : Tok) (mask : Mask) : Tok := map2 (map2 scale) x mask.

(* pair_rep * pair_mask[..., None] *)
Definition mul_pair_mask (p : Pair) (pair_mask : PairMask) : Pair :=
  map2 (map2 (map2 scale)) p pair_mask.

(* mask[:, None, :] * mask[:, :, None]: entry [b, i, j] is mask[b, j] * mask[b, i] *)
Definition pair_mask_col_row (mask : Mask) : PairMask :=
  map (fun m => map (fun mi => map (fun mj => mj && mi) m) m) mask.

(* mask[:, :, None] * mask[:, None, :]: entry [b, i, j] is mask[b, i] * mask[b, j] *)
Definition pair_mask_row_col (mask : Mask) : PairMask :=
  map (fun m => map (fun mi => map (fun mj => mi && mj) m) m) mask.

(* x + y for token tensors of one shape *)
Definition tok_add (x y : Tok) : Tok := map2 (map2 (map2 add)) x y.

(* x + s for a scalar s *)
Definition tok_add_scalar (x : Tok) (s : num) : Tok :=
  map (map (map (fun a => add a s))) x.

(* application of a per-vector operator along the last axis *)
Definition on_tok (f : Vec -> Vec) (x : Tok) : Tok := map (map f) x.
Definition on_pair (f : Vec -> Vec) (p : Pair) : Pair := map (map (map f)) p.

(* .chunk(2, dim=-1): the first ceil(d/2) entries and the rest *)
Definition chunk2 (x : Tok) : Tok * Tok :=
  (on_tok (fun v => firstn (Nat.div2 (S (length v))) v) x,
   on_tok (fun v => skipn (Nat.div2 (S (length v))) v) x).

Definition tok_shape (x : Tok) (b n d : nat) : Prop :=
  length x = b /\
  Forall (fun s => length s = n /\ Forall (fun v => length v = d) s) x.

(** torch.nn.Linear: [weight] has one row per output feature. *)
Record Linear : Type := {
  weight : list Vec;
  bias : option Vec
}.

Definition dot (u v : Vec) : num := fold_right add zero (map2 mul u v).

Definition Linear_init (in_features out_features : nat) (with_bias : bool)
    (w : nat -> nat -> num) (b : nat -> num) : Linear :=
  {| weight := tabulate out_features (fun o => tabulate in_features (w o));
     bias := if with_bias then Some (tabulate out_features b) else None |}.

Definition Linear_forward (l : Linear) (v : Vec) : Vec :=
  match bias l with
  | Some bs => map2 (fun row bo => add (dot row v) bo) (weight l) bs
  | None => map (fun row => dot row v) (weight l)
  end.

End Tensors.

(** ** Exceptions and the call log *)

Inductive PyError : Type :=
| AttributeError
| TypeError
| IndexError
| ZeroDivisionError.

Inductive result (A : Type) : Type :=
| Ok (a : A)
| Raise (e : PyError).
Arguments Ok {A} a.
Arguments Raise {A} e.

Definition bindR {A B : Type} (r : result A) (k : A -> result B) : result B :=
  match r with
  | Ok a => k a
  | Raise e => Raise e
  end.

Declare Scope res_scope.
Delimit Scope res_scope with res.
Notation "x <- c ;; k" := (bindR c (fun x => k))
  (at level 61, c at next level, right associativity) : res_scope.
Notation "' p <- c ;; k" := (bindR c (fun x => match x with p => k end))
  (at level 61, p pattern, c at next level, right associativity) : res_scope.

(* lst[i] for a Python list and an index from range(...) *)
Definition getitem {A : Type} (l : list A) (i : Z) : result A :=
  match nth_error l (Z.to_nat i) with
  | Some a => Ok a
  | None => Raise IndexError
  end.

(* x.attr, where x is None or the attribute is set on one branch of
   __init__ only *)
Definition getattr {A : Type} (a : option A) : result A :=
  match a with
  | Some v => Ok v
  | None => Raise AttributeError
  end.

(* x[...] or f(x) on a tensor, where x may be None *)
Definition not_none {A : Type} (a : option A) : result A :=
  match a with
  | Some v => Ok v
  | None => Raise TypeError
  end.

Section Log.
Context {SC : Scalar}.

(** The batch dictionary: the two keys the trunk reads itself and the
    fields that only the feature factories read. *)
Record Batch : Type := {
  mask : Mask;
  x_t : Tok;
  fields : list (string * Tok)
}.

(** Calls of sub-modules made by [ProteinTransformerAF3.forward]. *)
Inductive Event : Type :=
| EvCondFactory                       (* self.cond_factory(batch_nn) *)
| EvTransitionC (k : nat)             (* self.transition_c_k(c, mask) *)
| EvInitReprFactory                   (* self.init_repr_factory(batch_nn) *)
| EvPairReprBuilder                   (* self.pair_repr_builder(batch_nn) *)
| EvBlock (i : Z) (seqs : Tok) (pair_rep : option Pair) (c : Tok) (m : Mask)
                                      (* self.transformer_layers[i](seqs, pair_rep, c, mask) *)
| EvPairUpdate (i : Z)                (* self.pair_update_layers[i](seqs, pair_rep, mask) *)
| EvDecoder                           (* self.coors_3d_decoder(seqs) *)
| EvPairHead.                         (* self.pair_head_prediction(pair_rep) *)

(** A computation that logs calls and may raise. *)
Definition M (A : Type) : Type := (list Event * result A)%type.

Definition ret {A : Type} (a : A) : M A := ([], Ok a).

Definition bind {A B : Type} (c : M A) (k : A -> M B) : M B :=
  match c with
  | (t, Ok a) => let (t', r) := k a in (t ++ t', r)
  | (t, Raise e) => (t, Raise e)
  end.

Definition emit (e : Event) : M unit := ([e], Ok tt).

Definition lift {A : Type} (r : result A) : M A := ([], r).

Definition log {A : Type} (c : M A) : list Event := fst c.
Definition outcome {A : Type} (c : M A) : result A := snd c.

End Log.

Declare Scope py_scope.
Delimit Scope py_scope with py.
Notation "x <- c ;; k" := (bind c (fun x => k))
  (at level 61, c at next level, right associativity) : py_scope.
Notation "' p <- c ;; k" := (bind c (fun x => match x with p => k end))
  (at level 61, p pattern, c at next level, right associativity) : py_scope.
Notation "c ;; k" := (bind c (fun _ => k))
  (at level 61, right associativity) : py_scope.

(** ** class SequenceToCoordinates *)

Module SequenceToCoordinates.
Section Defs.
Context {SC : Scalar}.

Record Params : Type := {
  p_ln : Vec -> Vec;
  p_linear_w : nat -> nat -> num;
  p_linear_b : nat -> num
}.

Record t : Type := {
  ln : Vec -> Vec;
  linear : Linear
}.

Definition __init__ (dim_token : nat) (p : Params) : t :=
  {| ln := p_ln p;
     linear := Linear_init dim_token 3 true (p_linear_w p) (p_linear_b p) |}.

Definition forward (self : t) (seqs x_t : Tok) (mask : Mask) : Tok :=
  let delta_x := on_tok (Linear_forward (linear self)) (on_tok (ln self) seqs) in
  let x_t := tok_add x_t delta_x in
  mul_mask x_t mask.

End Defs.
End SequenceToCoordinates.

(** ** class CoordinatesToSequenceLinear *)

Module CoordinatesToSequenceLinear.
Section Defs.
Context {SC : Scalar}.

Record Params : Type := {
  p_linear_w : nat -> nat -> num;
  p_ln : Vec -> Vec
}.

Record t : Type := {
  linear : Linear;
  ln : Vec -> Vec
}.

Definition __init__ (dim_token : nat) (p : Params) : t :=
  {| linear := Linear_init 3 dim_token false (p_linear_w p) (fun _ => zero);
     ln := p_ln p |}.

Definition forward (self : t) (seqs x_t : Tok) (mask : Mask) : Tok :=
  let delta_seq := on_tok (ln self) (on_tok (Linear_forward (linear self)) x_t) in
  let seqs := tok_add seqs delta_seq in
  mul_mask seqs mask.

End Defs.
End CoordinatesToSequenceLinear.

(** ** class CoordinatesToSequenceIPA *)

Module CoordinatesToSequenceIPA.
Section Defs.
Context {SC : Scalar}.

Record t : Type := {
  (* InvariantPointAttention(s, z, r, mask), with r the rigid of
     translations x_t and identity rotations *)
  ipa : Tok -> Pair -> Tok -> Mask -> Tok
}.

Definition forward (self : t) (seqs : Tok) (pair_rep : Pair) (x_t : Tok)
    (mask : Mask) : Tok :=
  let x_t := mul_mask x_t mask in
  let r := x_t in  (* Rotations default to identity *)
  let delta_seqs := ipa self seqs pair_rep r mask in
  let seqs := tok_add seqs delta_seqs in
  mul_mask seqs mask.

End Defs.
End CoordinatesToSequenceIPA.

(** ** class MultiHeadAttention *)

Module MultiHeadAttention.
Section Defs.
Context {SC : Scalar}.

Record Params : Type := {
  p_to_q_w : nat -> nat -> num;
  p_to_q_b : nat -> num;
  p_to_kv_w : nat -> nat -> num;
  (* torch.nn.MultiheadAttention: query, key, value, key_padding_mask *)
  p_mha : Tok -> Tok -> Tok -> Mask -> Tok
}.

Record t : Type := {
  to_q : Linear;
  to_kv : Linear;
  mha : Tok -> Tok -> Tok -> Mask -> Tok
}.

Definition __init__ (dim_token : nat) (p : Params) : t :=
  {| to_q := Linear_init dim_token dim_token true (p_to_q_w p) (p_to_q_b p);
     to_kv := Linear_init dim_token (2 * dim_token) false (p_to_kv_w p)
                (fun _ => zero);
     mha := p_mha p |}.

Definition forward (self : t) (x : Tok) (mask : Mask) : Tok :=
  let query := on_tok (Linear_forward (to_q self)) x in
  let '(key, value) := chunk2 (on_tok (Linear_forward (to_kv self)) x) in
  mul_mask
    (mha self query key value
       (map (map negb) mask))   (* ~mask: True is what should be ignored *)
    mask.

End Defs.
End MultiHeadAttention.

(** ** class MultiHeadAttentionADALN *)

Module MultiHeadAttentionADALN.
Section Defs.
Context {SC : Scalar}.

Record t : Type := {
  adaln : Tok -> Tok -> Mask -> Tok;
  mha : MultiHeadAttention.t;
  scale_output : Tok -> Tok -> Mask -> Tok
}.

Definition forward (self : t) (x cond : Tok) (mask : Mask) : Tok :=
  let x := adaln self x cond mask in
  let x := MultiHeadAttention.forward (mha self) x mask in
  let x := scale_output self x cond mask in
  mul_mask x mask.

End Defs.
End MultiHeadAttentionADALN.

(** ** class Transition *)

Module Transition.
Section Defs.
Context {SC : Scalar}.

Record Params : Type := {
  p_ln : Vec -> Vec;
  p_swish_w : nat -> nat -> num;
  p_swiglu : Vec -> Vec;
  p_out_w : nat -> nat -> num
}.

Record t : Type := {
  dim : nat;
  expansion_factor : nat;
  dim_inner : nat;
  use_layer_norm : bool;
  ln : Vec -> Vec;                       (* set only if use_layer_norm *)
  swish_linear : Linear * (Vec -> Vec);  (* Sequential(Linear, SwiGLU()) *)
  linear_out : Linear
}.

Definition __init__ (dim expansion_factor : nat) (layer_norm : bool)
    (p : Params) : t :=
  let dim_inner := (dim * expansion_factor)%nat in
  {| dim := dim;
     expansion_factor := expansion_factor;
     dim_inner := dim_inner;
     use_layer_norm := layer_norm;
     ln := p_ln p;
     swish_linear :=
       (Linear_init dim (dim_inner * 2) false (p_swish_w p) (fun _ => zero),
        p_swiglu p);
     linear_out := Linear_init dim_inner dim false (p_out_w p) (fun _ => zero) |}.

Definition forward (self : t) (x : Tok) (mask : Mask) : Tok :=
  let x := if use_layer_norm self then on_tok (ln self) x else x in
  let x :=
    on_tok (Linear_forward (linear_out self))
      (on_tok (snd (swish_linear self))
         (on_tok (Linear_forward (fst (swish_linear self))) x)) in
  mul_mask x mask.

End Defs.
End Transition.

(** ** class TransitionADALN *)

Module TransitionADALN.
Section Defs.
Context {SC : Scalar}.

Record Params : Type := {
  p_adaln : Tok -> Tok -> Mask -> Tok;
  p_transition : Transition.Params;
  p_scale_output : Tok -> Tok -> Mask -> Tok
}.

Record t : Type := {
  adaln : Tok -> Tok -> Mask -> Tok;
  transition : Transition.t;
  scale_output : Tok -> Tok -> Mask -> Tok
}.

Definition __init__ (dim dim_cond expansion_factor : nat) (p : Params) : t :=
  {| adaln := p_adaln p;
     transition := Transition.__init__ dim expansion_factor false (p_transition p);
     scale_output := p_scale_output p |}.

Definition forward (self : t) (x cond : Tok) (mask : Mask) : Tok :=
  let x := adaln self x cond mask in
  let x := Transition.forward (transition self) x mask in
  let x := scale_output self x cond mask in
  mul_mask x mask.

End Defs.
End TransitionADALN.

(** ** class MultiHeadBiasedAttentionADALN_MM *)

Module MultiHeadBiasedAttentionADALN_MM.
Section Defs.
Context {SC : Scalar}.

Record Params : Type := {
  p_adaln : Tok -> Tok -> Mask -> Tok;
  p_mha : Tok -> option Pair -> PairMask -> Tok;
  p_scale_output : Tok -> Tok -> Mask -> Tok
}.

Record t : Type := {
  dim_head : nat;
  adaln : Tok -> Tok -> Mask -> Tok;
  mha : Tok -> option Pair -> PairMask -> Tok;   (* PairBiasAttention *)
  scale_output : Tok -> Tok -> Mask -> Tok
}.

Definition __init__ (dim_token dim_pair nheads dim_cond : nat) (use_qkln : bool)
    (p : Params) : result t :=
  if (nheads =? 0)%nat then Raise ZeroDivisionError   (* dim_token // nheads *)
  else
    Ok {| dim_head := (dim_token / nheads)%nat;
          adaln := p_adaln p;
          mha := p_mha p;
          scale_output := p_scale_output p |}.

Definition forward (self : t) (x : Tok) (pair_rep : option Pair) (cond : Tok)
    (mask : Mask) : Tok :=
  let pair_mask := pair_mask_row_col mask in
  let x := adaln self x cond mask in
  let x := mha self x pair_rep pair_mask in
  let x := scale_output self x cond mask in
  mul_mask x mask.

End Defs.
End MultiHeadBiasedAttentionADALN_MM.

(** ** class MultiheadAttnAndTransition *)

Module MultiheadAttnAndTransition.
Section Defs.
Context {SC : Scalar}.

Record Params : Type := {
  p_mhba : MultiHeadBiasedAttentionADALN_MM.Params;
  p_transition : TransitionADALN.Params
}.

Record t : Type := {
  parallel : bool;
  use_attn_pair_bias : bool;
  residual_mha : bool;
  residual_transition : bool;
  mhba : MultiHeadBiasedAttentionADALN_MM.t;
  transition : TransitionADALN.t
}.

Definition __init__ (dim_token dim_pair nheads dim_cond : nat)
    (residual_mha residual_transition parallel_mha_transition
     use_attn_pair_bias use_qkln : bool)
    (expansion_factor : nat) (p : Params) : result t :=
  let parallel := parallel_mha_transition in
  (* If parallel do not allow both layers to have a residual connection
     since it leads to adding x twice *)
  let residual_transition :=
    if parallel && residual_mha && residual_transition then false
    else residual_transition in
  match MultiHeadBiasedAttentionADALN_MM.__init__
          dim_token dim_pair nheads dim_cond use_qkln (p_mhba p) with
  | Raise e => Raise e
  | Ok mhba =>
      Ok {| parallel := parallel;
            use_attn_pair_bias := use_attn_pair_bias;
            residual_mha := residual_mha;
            residual_transition := residual_transition;
            mhba := mhba;
            transition :=
              TransitionADALN.__init__ dim_token dim_cond expansion_factor
                (p_transition p) |}
  end.

Definition _apply_mha (self : t) (x : Tok) (pair_rep : option Pair)
    (cond : Tok) (mask : Mask) : Tok :=
  let x_attn := MultiHeadBiasedAttentionADALN_MM.forward (mhba self) x pair_rep cond mask in
  let x_attn := if residual_mha self then tok_add x_attn x else x_attn in
  mul_mask x_attn mask.

Definition _apply_transition (self : t) (x cond : Tok) (mask : Mask) : Tok :=
  let x_tr := TransitionADALN.forward (transition self) x cond mask in
  let x_tr := if residual_transition self then tok_add x_tr x else x_tr in
  mul_mask x_tr mask.

Definition forward (self : t) (x : Tok) (pair_rep : option Pair) (cond : Tok)
    (mask : Mask) : Tok :=
  let x := mul_mask x mask in
  let x :=
    if parallel self then
      tok_add (_apply_mha self x pair_rep cond mask)
              (_apply_transition self x cond mask)
    else
      let x := _apply_mha self x pair_rep cond mask in
      _apply_transition self x cond mask in
  mul_mask x mask.

End Defs.
End MultiheadAttnAndTransition.

(** ** class PairReprUpdate *)

Module PairReprUpdate.
Section Defs.
Context {SC : Scalar}.

Record Params : Type := {
  p_layer_norm_in : Vec -> Vec;
  p_linear_x_w : nat -> nat -> num;
  p_tri_mult_out : Pair -> PairMask -> Pair;
  p_tri_mult_in : Pair -> PairMask -> Pair;
  p_transition_out : Pair -> PairMask -> Pair
}.

Record t : Type := {
  use_tri_mult : bool;
  layer_norm_in : Vec -> Vec;
  linear_x : Linear;
  tri_mult_out : option (Pair -> PairMask -> Pair);   (* set only if use_tri_mult *)
  tri_mult_in : option (Pair -> PairMask -> Pair);    (* set only if use_tri_mult *)
  transition_out : Pair -> PairMask -> Pair
}.

Definition __init__ (token_dim pair_dim : nat) (use_tri_mult : bool)
    (p : Params) : t :=
  {| use_tri_mult := use_tri_mult;
     layer_norm_in := p_layer_norm_in p;
     linear_x := Linear_init token_dim (2 * pair_dim) false (p_linear_x_w p) (fun _ => zero);
     tri_mult_out := if use_tri_mult then Some (p_tri_mult_out p) else None;
     tri_mult_in := if use_tri_mult then Some (p_tri_mult_in p) else None;
     transition_out := p_transition_out p |}.

Definition _apply_mask (pair_rep : Pair) (pair_mask : PairMask) : Pair :=
  mul_pair_mask pair_rep pair_mask.

(* pair_rep + x_proj_1[:, None, :, :]: the vector of position j goes to column j *)
Definition add_cols (pair_rep : Pair) (x_proj_1 : Tok) : Pair :=
  map2 (fun p x1 => map (fun row => map2 (map2 add) row x1) p) pair_rep x_proj_1.

(* pair_rep + x_proj_2[:, :, None, :]: the vector of position i goes to row i *)
Definition add_rows (pair_rep : Pair) (x_proj_2 : Tok) : Pair :=
  map2 (fun p x2 => map2 (fun row v => map (fun cell => map2 add cell v) row) p x2)
       pair_rep x_proj_2.

(* pair_rep + f(pair_rep, pair_mask * 1.0) *)
Definition pair_add (p q : Pair) : Pair := map2 (map2 (map2 (map2 add))) p q.

(* lines 488-496: the token projections added to the pair tensor, masked *)
Definition outer_sum (self : t) (x : Tok) (pair_rep : Pair) (mask : Mask) : Pair :=
  let pair_mask := pair_mask_col_row mask in
  let x := mul_mask x mask in
  let '(x_proj_1, x_proj_2) :=
    chunk2 (on_tok (Linear_forward (linear_x self)) (on_tok (layer_norm_in self) x)) in
  let pair_rep := add_rows (add_cols pair_rep x_proj_1) x_proj_2 in
  _apply_mask pair_rep pair_mask.

(* lines 499-512: triangular updates and pair transition; a checkpointed
   call has the value of the plain call *)
Definition refine (self : t) (pair_rep : Pair) (pair_mask : PairMask)
    : result Pair :=
  (pair_rep <-
     (if use_tri_mult self then
        tri_mult_out <- getattr (tri_mult_out self) ;;
        let pair_rep := pair_add pair_rep (tri_mult_out pair_rep pair_mask) in
        let pair_rep := _apply_mask pair_rep pair_mask in
        tri_mult_in <- getattr (tri_mult_in self) ;;
        let pair_rep := pair_add pair_rep (tri_mult_in pair_rep pair_mask) in
        let pair_rep := _apply_mask pair_rep pair_mask in
        Ok pair_rep
      else Ok pair_rep) ;;
   let pair_rep := pair_add pair_rep (transition_out self pair_rep pair_mask) in
   let pair_rep := _apply_mask pair_rep pair_mask in
   Ok pair_rep)%res.

(* lines 478-512 *)
Definition forward (self : t) (x : Tok) (pair_rep : option Pair) (mask : Mask)
    : result Pair :=
  match pair_rep with
  | None => Raise TypeError                      (* None + tensor *)
  | Some pair_rep =>
      refine self (outer_sum self x pair_rep mask) (pair_mask_col_row mask)
  end.

End Defs.
End PairReprUpdate.

(** ** class PairReprBuilder *)

Module PairReprBuilder.
Section Defs.
Context {SC : Scalar}.

Record Params : Type := {
  p_init_repr_factory : Batch -> Pair;
  p_cond_factory : Batch -> Pair;
  p_adaln : Pair -> Pair -> PairMask -> Pair
}.

Record t : Type := {
  init_repr_factory : Batch -> Pair;
  (* cond_factory, with the adaln layer that __init__ sets along with it *)
  cond_factory : option ((Batch -> Pair) * (Pair -> Pair -> PairMask -> Pair))
}.

Definition __init__ (feats_cond : option (list string)) (p : Params) : t :=
  {| init_repr_factory := p_init_repr_factory p;
     cond_factory :=
       match feats_cond with
       | Some (_ :: _) => Some (p_cond_factory p, p_adaln p)
       | _ => None
       end |}.

Definition forward (self : t) (batch_nn : Batch) : Pair :=
  let mask := mask batch_nn in
  let pair_mask := pair_mask_row_col mask in
  let repr := init_repr_factory self batch_nn in
  match cond_factory self with
  | Some (cond_factory, adaln) =>
      let cond := cond_factory batch_nn in
      adaln repr cond pair_mask
  | None => repr
  end.

End Defs.
End PairReprBuilder.

(** ** class ProteinTransformerAF3 *)

Module ProteinTransformerAF3.
Section Defs.
Context {SC : Scalar}.

(** The keyword arguments of the constructor.  A key read with
    [kwargs.get] is an option ([None]: the key is missing); a key read with
    [kwargs[...]] is a plain field.  The feature lists that only the
    feature factories read are left out. *)
Record Kwargs : Type := {
  kw_use_attn_pair_bias : bool;
  kw_nlayers : Z;
  kw_token_dim : nat;
  kw_pair_repr_dim : nat;
  kw_dim_cond : nat;
  kw_nheads : nat;
  kw_residual_mha : bool;
  kw_residual_transition : bool;
  kw_parallel_mha_transition : bool;
  kw_feats_pair_cond : option (list string);   (* the value may be None *)
  kw_update_pair_repr : option bool;
  kw_update_pair_repr_every_n : option Z;
  kw_use_tri_mult : option bool;
  kw_use_qkln : option bool;
  kw_num_buckets_predict_pair : option nat;
  (* None: the key is missing or its value is None *)
  kw_num_registers : option Z
}.

(** Initial parameters and external operators of every sub-module. *)
Record Params : Type := {
  p_registers : nat -> nat -> num;          (* torch.randn(...) / 20.0 *)
  p_linear_3d_embed : nat -> nat -> num;
  p_init_repr_factory : Batch -> Tok;
  p_cond_factory : Batch -> Tok;
  p_transition_c_1 : Transition.Params;
  p_transition_c_2 : Transition.Params;
  p_pair_repr_builder : PairReprBuilder.Params;
  p_transformer_layers : Z -> MultiheadAttnAndTransition.Params;
  p_pair_update_layers : Z -> PairReprUpdate.Params;
  p_pair_head_ln : Vec -> Vec;
  p_pair_head_w : nat -> nat -> num;
  p_pair_head_b : nat -> num;
  p_decoder_ln : Vec -> Vec;
  p_decoder_w : nat -> nat -> num
}.

Record t : Type := {
  use_attn_pair_bias : bool;
  nlayers : Z;
  token_dim : nat;
  pair_repr_dim : nat;
  update_pair_repr : bool;
  update_pair_repr_every_n : Z;
  use_tri_mult : bool;
  use_qkln : bool;
  num_buckets_predict_pair : option nat;
  num_registers : Z;
  registers : option (list Vec);
  linear_3d_embed : Linear;
  init_repr_factory : Batch -> Tok;
  cond_factory : Batch -> Tok;
  transition_c_1 : Transition.t;
  transition_c_2 : Transition.t;
  pair_repr_builder : option PairReprBuilder.t;         (* set only if use_attn_pair_bias *)
  transformer_layers : list MultiheadAttnAndTransition.t;
  pair_update_layers : option (list (option PairReprUpdate.t));
                                                        (* set only if update_pair_repr *)
  pair_head_prediction : option ((Vec -> Vec) * Linear); (* Sequential(LayerNorm, Linear) *)
  coors_3d_decoder : (Vec -> Vec) * Linear              (* Sequential(LayerNorm, Linear) *)
}.

(* the keyword arguments with another value for num_registers *)
Definition with_num_registers (kwargs : Kwargs) (v : option Z) : Kwargs :=
  {| kw_use_attn_pair_bias := kw_use_attn_pair_bias kwargs;
     kw_nlayers := kw_nlayers kwargs;
     kw_token_dim := kw_token_dim kwargs;
     kw_pair_repr_dim := kw_pair_repr_dim kwargs;
     kw_dim_cond := kw_dim_cond kwargs;
     kw_nheads := kw_nheads kwargs;
     kw_residual_mha := kw_residual_mha kwargs;
     kw_residual_transition := kw_residual_transition kwargs;
     kw_parallel_mha_transition := kw_parallel_mha_transition kwargs;
     kw_feats_pair_cond := kw_feats_pair_cond kwargs;
     kw_update_pair_repr := kw_update_pair_repr kwargs;
     kw_update_pair_repr_every_n := kw_update_pair_repr_every_n kwargs;
     kw_use_tri_mult := kw_use_tri_mult kwargs;
     kw_use_qkln := kw_use_qkln kwargs;
     kw_num_buckets_predict_pair := kw_num_buckets_predict_pair kwargs;
     kw_num_registers := v |}.

(* kwargs.get(key, default) *)
Definition get {A : Type} (v : option A) (default : A) : A :=
  match v with
  | Some a => a
  | None => default
  end.

(* a % b on Python integers *)
Definition py_mod (a b : Z) : result Z :=
  if b =? 0 then Raise ZeroDivisionError else Ok (a mod b).

(* [f(i) for i in idxs] *)
Fixpoint comprehension {A : Type} (f : Z -> result A) (idxs : list Z)
    : result (list A) :=
  match idxs with
  | [] => Ok []
  | i :: rest =>
      (a <- f i ;;
       l <- comprehension f rest ;;
       Ok (a :: l))%res
  end.

Definition __init__ (kwargs : Kwargs) (p : Params) : result t :=
  let use_attn_pair_bias := kw_use_attn_pair_bias kwargs in
  let nlayers := kw_nlayers kwargs in
  let token_dim := kw_token_dim kwargs in
  let pair_repr_dim := kw_pair_repr_dim kwargs in
  let update_pair_repr := get (kw_update_pair_repr kwargs) false in
  let update_pair_repr_every_n := get (kw_update_pair_repr_every_n kwargs) 2 in
  let use_tri_mult := get (kw_use_tri_mult kwargs) false in
  let use_qkln := get (kw_use_qkln kwargs) false in
  let num_buckets_predict_pair := kw_num_buckets_predict_pair kwargs in
  (* Registers *)
  let '(num_registers, registers) :=
    match kw_num_registers kwargs with
    | None => (0, None)
    | Some r =>
        if r <=? 0 then (0, None)
        else (r, Some (tabulate (Z.to_nat r)
                         (fun i => tabulate token_dim (p_registers p i))))
    end in
  let linear_3d_embed :=
    Linear_init 3 token_dim false (p_linear_3d_embed p) (fun _ => zero) in
  let transition_c_1 :=
    Transition.__init__ (kw_dim_cond kwargs) 2 false (p_transition_c_1 p) in
  let transition_c_2 :=
    Transition.__init__ (kw_dim_cond kwargs) 2 false (p_transition_c_2 p) in
  (* To get pair representation *)
  let '(pair_repr_builder, update_pair_repr) :=
    if use_attn_pair_bias then
      (Some (PairReprBuilder.__init__ (kw_feats_pair_cond kwargs)
               (p_pair_repr_builder p)),
       update_pair_repr)
    else
      (* If no pair bias no point in having a pair representation *)
      (None, false) in
  (* Trunk layers *)
  (transformer_layers <-
     comprehension
       (fun i =>
          MultiheadAttnAndTransition.__init__
            token_dim pair_repr_dim (kw_nheads kwargs) (kw_dim_cond kwargs)
            (kw_residual_mha kwargs) (kw_residual_transition kwargs)
            (kw_parallel_mha_transition kwargs) use_attn_pair_bias use_qkln
            4 (p_transformer_layers p i))
       (range nlayers) ;;
   (* To update pair representations if needed *)
   '(pair_update_layers, pair_head_prediction) <-
     (if update_pair_repr then
        pair_update_layers <-
          comprehension
            (fun i =>
               m <- py_mod i update_pair_repr_every_n ;;
               Ok (if m =? 0
                   then Some (PairReprUpdate.__init__ token_dim pair_repr_dim
                                use_tri_mult (p_pair_update_layers p i))
                   else None))
            (range (nlayers - 1)) ;;
        (* For distogram pair prediction *)
        Ok (Some pair_update_layers,
            match num_buckets_predict_pair with
            | Some nb =>
                Some (p_pair_head_ln p,
                      Linear_init pair_repr_dim nb true
                        (p_pair_head_w p) (p_pair_head_b p))
            | None => None
            end)
      else Ok (None, None)) ;;
   Ok {| use_attn_pair_bias := use_attn_pair_bias;
         nlayers := nlayers;
         token_dim := token_dim;
         pair_repr_dim := pair_repr_dim;
         update_pair_repr := update_pair_repr;
         update_pair_repr_every_n := update_pair_repr_every_n;
         use_tri_mult := use_tri_mult;
         use_qkln := use_qkln;
         num_buckets_predict_pair := num_buckets_predict_pair;
         num_registers := num_registers;
         registers := registers;
         linear_3d_embed := linear_3d_embed;
         init_repr_factory := p_init_repr_factory p;
         cond_factory := p_cond_factory p;
         transition_c_1 := transition_c_1;
         transition_c_2 := transition_c_2;
         pair_repr_builder := pair_repr_builder;
         transformer_layers := transformer_layers;
         pair_update_layers := pair_update_layers;
         pair_head_prediction := pair_head_prediction;
         coors_3d_decoder :=
           (p_decoder_ln p,
            Linear_init token_dim 3 false (p_decoder_w p) (fun _ => zero)) |})%res.

(* lines 714-762 *)
Definition _extend_w_registers (self : t) (seqs : Tok) (pair : option Pair)
    (mask : Mask) (cond_seq : Tok) : result (Tok * option Pair * Mask * Tok) :=
  if num_registers self =? 0 then
    Ok (seqs, pair, mask, cond_seq)  (* Do nothing *)
  else
    (* b, n, _ = seqs.shape; the batch axis is the outer list *)
    let n := length (hd [] seqs) in
    (pair <- getattr pair ;;
     let dim_pair := length (hd [] (hd [] (hd [] pair))) in
     let r := Z.to_nat (num_registers self) in
     let dim_cond := length (hd [] (hd [] cond_seq)) in
     (* Concatenate registers to sequence *)
     reg_expanded <- not_none (registers self) ;;      (* [r, dim_token], for every sample *)
     let seqs := map (fun s => reg_expanded ++ s) seqs in
     (* Extend mask *)
     let true_tensor := repeat true r in               (* [r], for every sample *)
     let mask := map (fun m => true_tensor ++ m) mask in
     (* Extend pair representation with zeros *)
     let zero_pad_top := repeat (repeat (repeat zero dim_pair) n) r in
                                                       (* [r, n, dim_pair], for every sample *)
     let pair := map (fun p => zero_pad_top ++ p) pair in
     let zero_pad_left := repeat (repeat zero dim_pair) r in
                                                       (* [r, dim_pair], for every row *)
     let pair := map (map (fun row => zero_pad_left ++ row)) pair in
     (* Extend cond *)
     let zero_tensor := repeat (repeat zero dim_cond) r in
                                                       (* [r, dim_cond], for every sample *)
     let cond_seq := map (fun c => zero_tensor ++ c) cond_seq in
     Ok (seqs, Some pair, mask, cond_seq))%res.

(* lines 764-779 *)
Definition _undo_registers (self : t) (seqs : Tok) (pair : option Pair)
    (mask : Mask) : result (Tok * option Pair * Mask) :=
  if num_registers self =? 0 then Ok (seqs, pair, mask)
  else
    let r := Z.to_nat (num_registers self) in
    (pair <- not_none pair ;;
     Ok (map (skipn r) seqs,
         Some (map (fun p => map (skipn r) (skipn r p)) pair),
         map (skipn r) mask))%res.

(** The dictionary [nn_out]; [pair_pred = None]: the key is not set. *)
Record Output : Type := {
  coors_pred : Tok;
  pair_pred : option Pair
}.

Definition sequential (m : (Vec -> Vec) * Linear) (v : Vec) : Vec :=
  Linear_forward (snd m) (fst m v).

Local Open Scope py_scope.

(* lines 823-843: the body of the loop over the blocks, at index i *)
Definition loop_body (self : t) (i : Z) (seqs : Tok) (pair_rep : option Pair)
    (c : Tok) (mask : Mask) : M (Tok * option Pair) :=
  layer <- lift (getitem (transformer_layers self) i) ;;
  emit (EvBlock i seqs pair_rep c mask) ;;
  let seqs := MultiheadAttnAndTransition.forward layer seqs pair_rep c mask in
  pair_rep <-
    (if update_pair_repr self then
       if i <? nlayers self - 1 then
         layers <- lift (getattr (pair_update_layers self)) ;;
         layer <- lift (getitem layers i) ;;
         match layer with
         | Some layer =>
             emit (EvPairUpdate i) ;;
             pair_rep <- lift (PairReprUpdate.forward layer seqs pair_rep mask) ;;
             ret (Some pair_rep)
         | None => ret pair_rep
         end
       else ret pair_rep
     else ret pair_rep) ;;
  ret (seqs, pair_rep).

(* line 822: for i in idxs *)
Fixpoint forward_loop (self : t) (idxs : list Z) (seqs : Tok)
    (pair_rep : option Pair) (c : Tok) (mask : Mask) : M (Tok * option Pair) :=
  match idxs with
  | [] => ret (seqs, pair_rep)
  | i :: rest =>
      '(seqs, pair_rep) <- loop_body self i seqs pair_rep c mask ;;
      forward_loop self rest seqs pair_rep c mask
  end.

(* lines 798-846: from the batch to the trunk output with registers removed *)
Definition forward_trunk (self : t) (batch_nn : Batch)
    : M (Tok * option Pair * Mask) :=
  let mask := mask batch_nn in
  (* Conditioning variables *)
  emit EvCondFactory ;;
  let c := cond_factory self batch_nn in
  emit (EvTransitionC 1) ;;
  emit (EvTransitionC 2) ;;
  let c := Transition.forward (transition_c_2 self)
             (Transition.forward (transition_c_1 self) c mask) mask in
  (* Prepare input *)
  let coors_3d := mul_mask (x_t batch_nn) mask in
  let coors_embed :=
    mul_mask (on_tok (Linear_forward (linear_3d_embed self)) coors_3d) mask in
  emit EvInitReprFactory ;;
  let seq_f_repr := init_repr_factory self batch_nn in
  let seqs := tok_add coors_embed seq_f_repr in
  let seqs := mul_mask seqs mask in
  (* Pair representation *)
  pair_rep <-
    (if use_attn_pair_bias self then
       pair_repr_builder <- lift (getattr (pair_repr_builder self)) ;;
       emit EvPairReprBuilder ;;
       ret (Some (PairReprBuilder.forward pair_repr_builder batch_nn))
     else ret None) ;;
  (* Apply registers *)
  '(seqs, pair_rep, mask, c) <- lift (_extend_w_registers self seqs pair_rep mask c) ;;
  (* Run trunk *)
  '(seqs, pair_rep) <- forward_loop self (range (nlayers self)) seqs pair_rep c mask ;;
  (* Undo registers *)
  lift (_undo_registers self seqs pair_rep mask).

(* lines 782-862 *)
Definition forward (self : t) (batch_nn : Batch) : M Output :=
  '(seqs, pair_rep, mask) <- forward_trunk self batch_nn ;;
  (* Get final coordinates *)
  emit EvDecoder ;;
  let final_coors := mul_mask (on_tok (sequential (coors_3d_decoder self)) seqs) mask in
  if update_pair_repr self &&
     match num_buckets_predict_pair self with Some _ => true | None => false end
  then
    pair_head_prediction <- lift (getattr (pair_head_prediction self)) ;;
    pair_rep <- lift (not_none pair_rep) ;;
    emit EvPairHead ;;
    let pair_pred := on_pair (sequential pair_head_prediction) pair_rep in
    let final_coors :=
      tok_add_scalar final_coors
        (mul (mean (concat (concat (concat pair_pred)))) zero) in
    let final_coors := mul_mask final_coors mask in
    ret {| coors_pred := final_coors; pair_pred := Some pair_pred |}
  else
    ret {| coors_pred := final_coors; pair_pred := None |}.

(* lines 864-915 *)
Definition nflops_computer (self : t) (b n : Z) : Z :=
  let token_dim := Z.of_nat (token_dim self) in
  let pair_repr_dim := Z.of_nat (pair_repr_dim self) in
  (* MHA *)
  (* QKV *)
  let nflops := 3 * n * token_dim ^ 2 in
  (* Attn logits *)
  let nflops := nflops + token_dim * n ^ 2 in
  (* softmax *)
  let nflops := nflops + n ^ 2 in
  (* attn *)
  let nflops := nflops + token_dim * n ^ 2 in
  (* FF in transition: linear, activation, linear *)
  let nflops := nflops + n * token_dim * 4 * token_dim in
  let nflops := nflops + n * 4 * token_dim in
  let nflops := nflops + n * token_dim * 4 * token_dim in
  (* Pair bias *)
  let nflops :=
    if use_attn_pair_bias self
    then nflops + (pair_repr_dim + 1) * n ^ 2
    else nflops in
  b * nflops * nlayers self.  (* Adjust for batch size and layers *)

End Defs.
End ProteinTransformerAF3.

(** * Properties *)

(** ** Zero at masked positions *)

Section Masking.
Context {SC : Scalar}.

(** Every entry of [x] at a position whose mask entry is [False] is zero. *)
Definition masked_tok (x : Tok) (mask : Mask) : Prop :=
  forall b i xs ms v,
    nth_error x b = Some xs -> nth_error mask b = Some ms ->
    nth_error xs i = Some v -> nth_error ms i = Some false ->
    Forall (fun a => a = zero) v.

(** Every entry of a cell [(i, j)] of [p] with [i] or [j] masked is zero. *)
Definition masked_pair (p : Pair) (mask : Mask) : Prop :=
  forall b i j pb ms row cell mi mj,
    nth_error p b = Some pb -> nth_error mask b = Some ms ->
    nth_error pb i = Some row -> nth_error row j = Some cell ->
    nth_error ms i = Some mi -> nth_error ms j = Some mj ->
    mi && mj = false ->
    Forall (fun a => a = zero) cell.

Lemma scale_false v : Forall (fun a => a = zero) (scale v false).
Proof.
  unfold scale. apply Forall_forall. intros a Ha.
  apply in_map_iff in Ha. destruct Ha as [a0 [<- _]].
  simpl. apply mul_zero_r.
Qed.



Lemma mul_mask_masked x mask : masked_tok (mul_mask x mask) mask.
Proof.
  intros b i xs ms v Hx Hm Hv Hi. unfold mul_mask in Hx.
  rewrite nth_error_map2, Hm in Hx.
  destruct (nth_error x b) as [xs0|]; [|discriminate].
  injection Hx as <-. rewrite nth_error_map2, Hi in Hv.
  destruct (nth_error xs0 i) as [v0|]; [|discriminate].
  injection Hv as <-. apply scale_false.
Qed.


Lemma mul_pair_mask_masked p mask :
  masked_pair (mul_pair_mask p (pair_mask_col_row mask)) mask.
Proof.
  intros b i j pb ms row cell mi mj Hp Hm Hrow Hcell Hi Hj Hf.
  unfold mul_pair_mask, pair_mask_col_row in Hp.
  rewrite nth_error_map2, nth_error_map, Hm in Hp. simpl in Hp.
  destruct (nth_error p b) as [pb0|]; [|discriminate].
  injection Hp as <-.
  rewrite nth_error_map2, nth_error_map, Hi in Hrow. simpl in Hrow.
  destruct (nth_error pb0 i) as [row0|]; [|discriminate].
  injection Hrow as <-.
  rewrite nth_error_map2, nth_error_map, Hj in Hcell. simpl in Hcell.
  destruct (nth_error row0 j) as [cell0|]; [|discriminate].
  injection Hcell as <-.
  rewrite andb_comm, Hf. apply scale_false.
Qed.


End Masking.

(** ** Sub-modules: what the last masking step guarantees *)

Section Layers.
Context {SC : Scalar}.

Lemma block_forward_masked (blk : MultiheadAttnAndTransition.t) x pair_rep c mask :
  masked_tok (MultiheadAttnAndTransition.forward blk x pair_rep c mask) mask.
Proof. unfold MultiheadAttnAndTransition.forward. apply mul_mask_masked. Qed.


(** The triangular layers exist when the flag says so. *)
Definition pair_update_wf (u : PairReprUpdate.t) : Prop :=
  PairReprUpdate.use_tri_mult u = true ->
  PairReprUpdate.tri_mult_out u <> None /\ PairReprUpdate.tri_mult_in u <> None.

Lemma pair_update_init_wf token_dim pair_dim use_tri_mult p :
  pair_update_wf (PairReprUpdate.__init__ token_dim pair_dim use_tri_mult p).
Proof.
  unfold pair_update_wf, PairReprUpdate.__init__. simpl.
  intros ->. split; discriminate.
Qed.

Lemma pair_update_forward_masked (u : PairReprUpdate.t) x p mask :
  pair_update_wf u ->
  exists p', PairReprUpdate.forward u x (Some p) mask = Ok p' /\ masked_pair p' mask.
Proof.
  intros Hwf. unfold PairReprUpdate.forward, PairReprUpdate.refine.
  destruct (PairReprUpdate.use_tri_mult u) eqn:Htri.
  - destruct (Hwf Htri) as [Ho Hi].
    destruct (PairReprUpdate.tri_mult_out u) as [fo|]; [|congruence].
    destruct (PairReprUpdate.tri_mult_in u) as [fi|]; [|congruence].
    simpl. eexists. split; [reflexivity|].
    apply mul_pair_mask_masked.
  - simpl. eexists. split; [reflexivity|].
    apply mul_pair_mask_masked.
Qed.

(** A linear layer with bias maps the zero vector to its bias. *)
Lemma dot_zero_r (row : Vec) n : dot row (repeat zero n) = zero.
Proof.
  unfold dot. revert n. induction row as [|a row IH]; intros [|n]; simpl;
    try reflexivity.
  now rewrite mul_zero_r, IH, add_zero_r.
Qed.

Lemma map2_tabulate {A B C : Type} (f : A -> B -> C) n g h :
  map2 f (tabulate n g) (tabulate n h) = tabulate n (fun i => f (g i) (h i)).
Proof.
  unfold tabulate. induction (seq 0 n) as [|i l IH]; simpl; [reflexivity|].
  now rewrite IH.
Qed.

Lemma Linear_forward_zero in_features out_features w b :
  Linear_forward (Linear_init in_features out_features true w b)
    (repeat zero in_features) = tabulate out_features b.
Proof.
  unfold Linear_forward, Linear_init. simpl. rewrite map2_tabulate.
  unfold tabulate at 1 3. apply map_ext. intros o.
  now rewrite dot_zero_r, add_zero_l.
Qed.

(** The auxiliary head, Sequential(LayerNorm, Linear), at a zero cell: when
    the layer norm maps the zero vector to itself (its shift is zero), the
    prediction at the cell is the bias of the linear layer. *)
Lemma pair_head_zero_cell (layer_norm : Vec -> Vec) pair_dim nb w b :
  layer_norm (repeat zero pair_dim) = repeat zero pair_dim ->
  ProteinTransformerAF3.sequential
    (layer_norm, Linear_init pair_dim nb true w b) (repeat zero pair_dim)
  = tabulate nb b.
Proof.
  intros H. unfold ProteinTransformerAF3.sequential. simpl fst. simpl snd.
  rewrite H. apply Linear_forward_zero.
Qed.

End Layers.

(** ** The call log *)

Section LogFacts.
Context {SC : Scalar}.

Lemma bind_ok {A B : Type} (c : M A) (k : A -> M B) t a :
  c = (t, Ok a) -> bind c k = (t ++ log (k a), outcome (k a)).
Proof. intros ->. unfold bind, log, outcome. destruct (k a); reflexivity. Qed.

Lemma bind_raise {A B : Type} (c : M A) (k : A -> M B) t e :
  c = (t, Raise e) -> bind c k = (t, Raise e).
Proof. intros ->. reflexivity. Qed.

Lemma log_outcome {A : Type} (c : M A) : c = (log c, outcome c).
Proof. destruct c; reflexivity. Qed.

(* the block indices at which the pair update ran *)
Definition pair_updates (t : list Event) : list Z :=
  flat_map (fun e => match e with EvPairUpdate i => [i] | _ => [] end) t.

(* the block indices of the block calls *)
Definition block_calls (t : list Event) : list Z :=
  flat_map (fun e => match e with EvBlock i _ _ _ _ => [i] | _ => [] end) t.

(* the calls of blocks and of the pair updater, in the order of the log *)
Inductive Step : Type :=
| BlockAt (i : Z)
| UpdateAt (i : Z).

Definition steps (t : list Event) : list Step :=
  flat_map (fun e => match e with
                     | EvBlock i _ _ _ _ => [BlockAt i]
                     | EvPairUpdate i => [UpdateAt i]
                     | _ => []
                     end) t.


Lemma pair_updates_app t1 t2 :
  pair_updates (t1 ++ t2) = pair_updates t1 ++ pair_updates t2.
Proof. apply flat_map_app. Qed.

Lemma block_calls_app t1 t2 :
  block_calls (t1 ++ t2) = block_calls t1 ++ block_calls t2.
Proof. apply flat_map_app. Qed.

Lemma steps_app t1 t2 : steps (t1 ++ t2) = steps t1 ++ steps t2.
Proof. apply flat_map_app. Qed.

Lemma in_pair_updates t i : In i (pair_updates t) <-> In (EvPairUpdate i) t.
Proof.
  unfold pair_updates. rewrite in_flat_map. split.
  - intros [e [He Hi]]. destruct e; simpl in Hi; try tauto.
    destruct Hi as [<-|[]]. exact He.
  - intros H. exists (EvPairUpdate i). split; [exact H|]. simpl. auto.
Qed.

End LogFacts.

(** ** Comprehensions and ranges *)

Lemma length_range n : length (range n) = Z.to_nat n.
Proof. unfold range. now rewrite length_map, length_seq. Qed.

Lemma nth_error_range n k :
  (k < Z.to_nat n)%nat -> nth_error (range n) k = Some (Z.of_nat k).
Proof.
  intros H. unfold range. rewrite nth_error_map.
  rewrite nth_error_seq. destruct (Nat.ltb_spec k (Z.to_nat n)); [|lia].
  reflexivity.
Qed.

Lemma in_range n i : In i (range n) <-> 0 <= i < n.
Proof.
  unfold range. rewrite in_map_iff. split.
  - intros [k [<- Hk]]. apply in_seq in Hk. lia.
  - intros H. exists (Z.to_nat i). split; [lia|]. apply in_seq. lia.
Qed.

Lemma comprehension_spec {A : Type} (f : Z -> result A) idxs l :
  ProteinTransformerAF3.comprehension f idxs = Ok l ->
  length l = length idxs /\
  forall k i, nth_error idxs k = Some i ->
    exists a, nth_error l k = Some a /\ f i = Ok a.
Proof.
  revert l. induction idxs as [|i0 idxs IH]; simpl; intros l H.
  - injection H as <-. split; [reflexivity|]. intros [|k] i; discriminate.
  - destruct (f i0) as [a0|e] eqn:Hf; simpl in H; [|discriminate].
    destruct (ProteinTransformerAF3.comprehension f idxs) as [l0|e];
      simpl in H; [|discriminate].
    injection H as <-. destruct (IH l0 eq_refl) as [Hlen Hnth].
    split; [simpl; now rewrite Hlen|].
    intros [|k] i; simpl.
    + intros [= <-]. exists a0. auto.
    + apply Hnth.
Qed.

(** ** What the constructor establishes *)

Section Construction.
Context {SC : Scalar}.
Import ProteinTransformerAF3.

(* the element of the list comprehension that builds transformer_layers *)
Definition block_init (kwargs : Kwargs) (p : Params) (i : Z)
    : result MultiheadAttnAndTransition.t :=
  MultiheadAttnAndTransition.__init__
    (kw_token_dim kwargs) (kw_pair_repr_dim kwargs) (kw_nheads kwargs)
    (kw_dim_cond kwargs) (kw_residual_mha kwargs) (kw_residual_transition kwargs)
    (kw_parallel_mha_transition kwargs) (kw_use_attn_pair_bias kwargs)
    (get (kw_use_qkln kwargs) false) 4 (p_transformer_layers p i).

(* the element of the list comprehension that builds pair_update_layers *)
Definition pair_update_init (kwargs : Kwargs) (p : Params) (i : Z)
    : result (option PairReprUpdate.t) :=
  (m <- py_mod i (get (kw_update_pair_repr_every_n kwargs) 2) ;;
   Ok (if m =? 0
       then Some (PairReprUpdate.__init__ (kw_token_dim kwargs)
                    (kw_pair_repr_dim kwargs) (get (kw_use_tri_mult kwargs) false)
                    (p_pair_update_layers p i))
       else None))%res.

(** The attributes of a constructed object, in terms of the arguments. *)
Record init_facts (kwargs : Kwargs) (p : Params) (m : t) : Prop := {
  if_use_attn_pair_bias : use_attn_pair_bias m = kw_use_attn_pair_bias kwargs;
  if_nlayers : nlayers m = kw_nlayers kwargs;
  if_update_pair_repr :
    update_pair_repr m =
    kw_use_attn_pair_bias kwargs && get (kw_update_pair_repr kwargs) false;
  if_every_n :
    update_pair_repr_every_n m = get (kw_update_pair_repr_every_n kwargs) 2;
  if_num_buckets :
    num_buckets_predict_pair m = kw_num_buckets_predict_pair kwargs;
  if_num_registers :
    num_registers m =
    match kw_num_registers kwargs with
    | Some r => if r <=? 0 then 0 else r
    | None => 0
    end;
  if_registers :
    registers m =
    if num_registers m =? 0 then None
    else Some (tabulate (Z.to_nat (num_registers m))
                 (fun i => tabulate (kw_token_dim kwargs) (p_registers p i)));
  if_cond_factory : cond_factory m = p_cond_factory p;
  if_transition_c_1 :
    transition_c_1 m =
    Transition.__init__ (kw_dim_cond kwargs) 2 false (p_transition_c_1 p);
  if_transition_c_2 :
    transition_c_2 m =
    Transition.__init__ (kw_dim_cond kwargs) 2 false (p_transition_c_2 p);
  if_pair_repr_builder :
    pair_repr_builder m =
    if kw_use_attn_pair_bias kwargs
    then Some (PairReprBuilder.__init__ (kw_feats_pair_cond kwargs)
                 (p_pair_repr_builder p))
    else None;
  if_transformer_layers :
    comprehension (block_init kwargs p) (range (kw_nlayers kwargs))
    = Ok (transformer_layers m);
  if_pair_update_layers :
    if update_pair_repr m then
      exists l,
        comprehension (pair_update_init kwargs p) (range (kw_nlayers kwargs - 1))
        = Ok l /\
        pair_update_layers m = Some l
    else pair_update_layers m = None;
  if_pair_head_prediction :
    pair_head_prediction m =
    if update_pair_repr m then
      match kw_num_buckets_predict_pair kwargs with
      | Some nb =>
          Some (p_pair_head_ln p,
                Linear_init (kw_pair_repr_dim kwargs) nb true
                  (p_pair_head_w p) (p_pair_head_b p))
      | None => None
      end
    else None
}.

Lemma init_inv kwargs p m : __init__ kwargs p = Ok m -> init_facts kwargs p m.
Proof.
  unfold __init__. intros H.
  destruct (match kw_num_registers kwargs with None => _ | Some r => _ end)
    as [nr regs] eqn:Hreg.
  destruct (if kw_use_attn_pair_bias kwargs then _ else _) as [bld upd] eqn:Hb.
  fold (block_init kwargs p) in H. fold (pair_update_init kwargs p) in H.
  destruct (comprehension (block_init kwargs p) _) as [layers|e] eqn:Hl;
    simpl in H; [|discriminate].
  assert (Hupd : upd = kw_use_attn_pair_bias kwargs
                       && get (kw_update_pair_repr kwargs) false).
  { destruct (kw_use_attn_pair_bias kwargs); injection Hb as _ <-; reflexivity. }
  assert (Hbld : bld = if kw_use_attn_pair_bias kwargs
                       then Some (PairReprBuilder.__init__ (kw_feats_pair_cond kwargs)
                                    (p_pair_repr_builder p))
                       else None).
  { destruct (kw_use_attn_pair_bias kwargs); injection Hb as <- _; reflexivity. }
  assert (Hnr : nr = match kw_num_registers kwargs with
                     | Some r => if r <=? 0 then 0 else r
                     | None => 0
                     end
                /\ regs = if nr =? 0 then None
                          else Some (tabulate (Z.to_nat nr)
                                 (fun i => tabulate (kw_token_dim kwargs) (p_registers p i)))).
  { destruct (kw_num_registers kwargs) as [r|].
    - destruct (Z.leb_spec r 0); injection Hreg as <- <-; split; try reflexivity.
      destruct (Z.eqb_spec r 0); [lia|reflexivity].
    - injection Hreg as <- <-. split; reflexivity. }
  destruct Hnr as [Hnr Hregs].
  destruct upd.
  - destruct (comprehension (pair_update_init kwargs p) _) as [ul|e] eqn:Hu;
      simpl in H; [|discriminate].
    injection H as <-.
    constructor; simpl; auto. exists ul. auto.
  - simpl in H. injection H as <-.
    constructor; simpl; auto.
Qed.

(** The invariant of constructed objects that the forward pass relies on. *)
Record wf (m : t) : Prop := {
  wf_registers :
    num_registers m = 0 /\ registers m = None \/
    0 < num_registers m /\
    exists regs, registers m = Some regs /\
                 length regs = Z.to_nat (num_registers m);
  wf_builder : use_attn_pair_bias m = true -> pair_repr_builder m <> None;
  wf_no_bias : use_attn_pair_bias m = false -> update_pair_repr m = false;
  wf_layers : length (transformer_layers m) = Z.to_nat (nlayers m);
  wf_updates :
    update_pair_repr m = true ->
    exists l, pair_update_layers m = Some l /\
      forall i, 0 <= i < nlayers m - 1 ->
        update_pair_repr_every_n m <> 0 /\
        exists o, nth_error l (Z.to_nat i) = Some o /\
          (o <> None <-> i mod update_pair_repr_every_n m = 0) /\
          forall u, o = Some u -> pair_update_wf u;
  wf_head :
    update_pair_repr m = true -> num_buckets_predict_pair m <> None ->
    pair_head_prediction m <> None
}.

Lemma init_wf kwargs p m : __init__ kwargs p = Ok m -> wf m.
Proof.
  intros H. destruct (init_inv _ _ _ H)
    as [Hb Hn Hu He Hnb Hnr Hregs _ _ _ Hbld Hl Hul Hh].
  constructor.
  - rewrite Hregs. destruct (Z.eqb_spec (num_registers m) 0) as [E|E]; [auto|].
    right. split.
    + rewrite Hnr in *. destruct (kw_num_registers kwargs) as [r|]; [|lia].
      destruct (Z.leb_spec r 0); lia.
    + eexists. split; [reflexivity|]. apply length_tabulate.
  - rewrite Hbld, Hb. intros ->. discriminate.
  - rewrite Hu, Hb. intros ->. reflexivity.
  - apply comprehension_spec in Hl. destruct Hl as [-> _].
    now rewrite length_range, Hn.
  - intros Hupd. rewrite Hupd in Hul. destruct Hul as [l [Hc Hl']].
    exists l. split; [exact Hl'|]. intros i Hi.
    apply comprehension_spec in Hc. destruct Hc as [_ Hnth].
    destruct (Hnth (Z.to_nat i) i) as [o [Ho Hf]].
    { rewrite nth_error_range by lia. f_equal. lia. }
    unfold pair_update_init, py_mod in Hf. rewrite <- He in Hf.
    destruct (Z.eqb_spec (update_pair_repr_every_n m) 0) as [E|E];
      [discriminate|].
    split; [exact E|]. exists o. split; [exact Ho|].
    simpl in Hf. injection Hf as <-.
    destruct (Z.eqb_spec (i mod update_pair_repr_every_n m) 0) as [E'|E'].
    + split; [split; [auto|discriminate]|].
      intros u [= <-]. apply pair_update_init_wf.
    + split; [split; [congruence|contradiction]|]. discriminate.
  - intros Hupd Hnb'. rewrite Hh, Hupd. rewrite Hnb in Hnb'.
    destruct (kw_num_buckets_predict_pair kwargs); [discriminate|congruence].
Qed.

End Construction.

(** ** The loop over the blocks *)

Section Loop.
Context {SC : Scalar}.
Import ProteinTransformerAF3.

(** The condition under which the pair update runs after block [i]. *)
Definition fires (m : t) (i : Z) : bool :=
  update_pair_repr m && (i <? nlayers m - 1)
  && (i mod update_pair_repr_every_n m =? 0).

(** What the loop may log: calls of blocks, all with the conditioning [c],
    the mask [mask] and a pair tensor that is absent iff [pair_rep] is, and
    calls of the pair updater. *)
Definition loop_event (pair_rep : option Pair) (c : Tok) (mask : Mask)
    (e : Event) : Prop :=
  match e with
  | EvBlock _ _ p c' mask' => c' = c /\ mask' = mask /\ (pair_rep = None <-> p = None)
  | EvPairUpdate _ => True
  | _ => False
  end.

Lemma loop_body_spec m i seqs pair_rep c mask :
  wf m -> 0 <= i < nlayers m ->
  (update_pair_repr m = true -> pair_rep <> None) ->
  exists layer pair_rep',
    nth_error (transformer_layers m) (Z.to_nat i) = Some layer /\
    loop_body m i seqs pair_rep c mask =
      (EvBlock i seqs pair_rep c mask
         :: (if fires m i then [EvPairUpdate i] else []),
       Ok (MultiheadAttnAndTransition.forward layer seqs pair_rep c mask,
           pair_rep')) /\
    (if fires m i
     then exists p', pair_rep' = Some p' /\ masked_pair p' mask
     else pair_rep' = pair_rep).
Proof.
  intros Hwf Hi Hpair.
  destruct (nth_error (transformer_layers m) (Z.to_nat i)) as [layer|] eqn:Hl.
  2:{ apply nth_error_None in Hl. rewrite (wf_layers _ Hwf) in Hl. lia. }
  exists layer. unfold loop_body, getitem, fires. rewrite Hl.
  destruct (update_pair_repr m) eqn:Hupd; simpl.
  2:{ exists pair_rep. auto. }
  destruct (Z.ltb_spec i (nlayers m - 1)) as [Hlt|Hge]; simpl.
  2:{ exists pair_rep. auto. }
  destruct (wf_updates _ Hwf Hupd) as [l [Hul Hnth]].
  destruct (Hnth i (conj (proj1 Hi) Hlt)) as [Hn0 [o [Ho [Hiff Hu]]]].
  rewrite Hul. simpl. rewrite Ho. simpl.
  destruct o as [u|].
  - rewrite (proj1 Hiff) by discriminate. simpl.
    destruct pair_rep as [p|]; [|exfalso; now apply Hpair].
    destruct (pair_update_forward_masked u
                (MultiheadAttnAndTransition.forward layer seqs (Some p) c mask)
                p mask (Hu u eq_refl)) as [p' [Hf Hm]].
    rewrite Hf. simpl. exists (Some p'). split; [reflexivity|].
    split; [reflexivity|]. exists p'. auto.
  - destruct (Z.eqb_spec (i mod update_pair_repr_every_n m) 0) as [E|E].
    + exfalso. apply Hiff in E. congruence.
    + simpl. exists pair_rep. auto.
Qed.

Lemma forward_loop_spec m c mask idxs :
  wf m -> Forall (fun i => 0 <= i < nlayers m) idxs ->
  forall seqs pair_rep,
  (update_pair_repr m = true -> pair_rep <> None) ->
  masked_tok seqs mask ->
  exists seqs' pair_rep' tr,
    forward_loop m idxs seqs pair_rep c mask = (tr, Ok (seqs', pair_rep')) /\
    masked_tok seqs' mask /\
    pair_updates tr = filter (fires m) idxs /\
    block_calls tr = idxs /\
    Forall (loop_event pair_rep c mask) tr /\
    (filter (fires m) idxs = [] -> pair_rep' = pair_rep) /\
    (filter (fires m) idxs <> [] ->
     exists p', pair_rep' = Some p' /\ masked_pair p' mask) /\
    (pair_rep = None <-> pair_rep' = None).
Proof.
  intros Hwf. induction idxs as [|i idxs IH]; intros Hall seqs pair_rep Hpair Hs.
  - exists seqs, pair_rep, []. simpl. repeat split; auto; try tauto.
  - inversion Hall as [|? ? Hi Hall']; subst.
    destruct (loop_body_spec m i seqs pair_rep c mask Hwf Hi Hpair)
      as [layer [pair1 [Hl [Hbody Hp1]]]].
    set (seqs1 := MultiheadAttnAndTransition.forward layer seqs pair_rep c mask) in *.
    assert (Hnone : pair_rep = None <-> pair1 = None).
    { destruct (fires m i) eqn:Hf.
      - destruct Hp1 as [p' [-> _]]. split; [|discriminate].
        intros ->. exfalso. apply Hpair; [|reflexivity].
        unfold fires in Hf. destruct (update_pair_repr m); [reflexivity|discriminate].
      - subst. tauto. }
    assert (Hpair1 : update_pair_repr m = true -> pair1 <> None).
    { intros Hu Hn. apply Hnone in Hn. now apply Hpair. }
    destruct (IH Hall' seqs1 pair1 Hpair1 (block_forward_masked _ _ _ _ _))
      as [seqs' [pair' [tr [Hloop [Hm [Hupd [Hblk [Hev [Hsame [Hmask Hnone']]]]]]]]]].
    exists seqs', pair'. eexists. simpl forward_loop.
    rewrite (bind_ok _ _ _ _ Hbody). simpl. rewrite Hloop. simpl.
    split; [reflexivity|]. split; [exact Hm|].
    assert (Hev' : Forall (loop_event pair_rep c mask) tr).
    { eapply Forall_impl; [|exact Hev]. intros [] He; simpl in *; tauto. }
    destruct (fires m i) eqn:Hf; simpl; rewrite Hupd, Hblk.
    + split; [reflexivity|]. split; [reflexivity|].
      split. { constructor; [simpl; tauto|]. constructor; [exact I|exact Hev']. }
      split; [discriminate|].
      split.
      { intros _. destruct (filter (fires m) idxs) eqn:Hfl.
        - rewrite (Hsame eq_refl). exact Hp1.
        - apply Hmask. discriminate. }
      tauto.
    + subst pair1.
      split; [reflexivity|]. split; [reflexivity|].
      split. { constructor; [simpl; tauto|exact Hev']. }
      tauto.
Qed.

(** The blocks run in order, each followed at once by the pair update when
    the condition holds at its index. *)
Definition plan (m : t) (idxs : list Z) : list Step :=
  flat_map (fun i => BlockAt i :: (if fires m i then [UpdateAt i] else [])) idxs.

Lemma forward_loop_steps m c mask idxs :
  wf m -> Forall (fun i => 0 <= i < nlayers m) idxs ->
  forall seqs pair_rep,
  (update_pair_repr m = true -> pair_rep <> None) ->
  steps (log (forward_loop m idxs seqs pair_rep c mask)) = plan m idxs.
Proof.
  intros Hwf. induction idxs as [|i idxs IH]; intros Hall seqs pair_rep Hpair.
  - reflexivity.
  - inversion Hall as [|? ? Hi Hall']; subst.
    destruct (loop_body_spec m i seqs pair_rep c mask Hwf Hi Hpair)
      as [layer [pair1 [_ [Hbody Hp1]]]].
    simpl forward_loop. rewrite (bind_ok _ _ _ _ Hbody).
    unfold log at 1. cbn [fst].
    rewrite steps_app. simpl plan. rewrite <- IH with
      (seqs := MultiheadAttnAndTransition.forward layer seqs pair_rep c mask)
      (pair_rep := pair1); [|exact Hall'|].
    + destruct (fires m i); reflexivity.
    + intros Hu. destruct (fires m i).
      * destruct Hp1 as [p' [-> _]]. discriminate.
      * subst pair1. now apply Hpair.
Qed.

End Loop.

(** ** Register augmentation *)

Section Registers.
Context {SC : Scalar}.
Import ProteinTransformerAF3.

Lemma skipn_prefix {A : Type} r (pre l : list A) :
  length pre = r -> skipn r (pre ++ l) = l.
Proof.
  intros <-. rewrite skipn_app, Nat.sub_diag, skipn_all. reflexivity.
Qed.

Lemma map_fix {A : Type} (f : A -> A) (l : list A) :
  (forall a, f a = a) -> map f l = l.
Proof.
  intros H. induction l as [|a l IH]; simpl; [reflexivity|].
  now rewrite H, IH.
Qed.

Lemma undo_prepend {A : Type} r (pre : list A) (x : list (list A)) :
  length pre = r -> map (skipn r) (map (fun s => pre ++ s) x) = x.
Proof.
  intros H. rewrite map_map. apply map_fix. intros s. now apply skipn_prefix.
Qed.

(** The conditioning tensor as the blocks receive it: with one zero vector
    per register in front of every sample. *)
Definition padded_cond (m : t) (c : Tok) : Tok :=
  if num_registers m =? 0 then c
  else map (fun s => repeat (repeat zero (length (hd [] (hd [] c))))
                       (Z.to_nat (num_registers m)) ++ s) c.

(** The mask with registers: [True] for every register. *)
Definition padded_mask (m : t) (mask : Mask) : Mask :=
  if num_registers m =? 0 then mask
  else map (fun k => repeat true (Z.to_nat (num_registers m)) ++ k) mask.

Lemma extend_zero m seqs pair_rep mask c :
  num_registers m = 0 ->
  _extend_w_registers m seqs pair_rep mask c = Ok (seqs, pair_rep, mask, c).
Proof. intros H. unfold _extend_w_registers. rewrite H. reflexivity. Qed.

Lemma undo_zero m seqs pair_rep mask :
  num_registers m = 0 ->
  _undo_registers m seqs pair_rep mask = Ok (seqs, pair_rep, mask).
Proof. intros H. unfold _undo_registers. rewrite H. reflexivity. Qed.

Lemma extend_absent_pair m seqs mask c :
  num_registers m <> 0 ->
  _extend_w_registers m seqs None mask c = Raise AttributeError.
Proof.
  intros H. unfold _extend_w_registers.
  destruct (Z.eqb_spec (num_registers m) 0); [contradiction|]. reflexivity.
Qed.

Lemma extend_present_pair m regs seqs p mask c :
  num_registers m <> 0 -> registers m = Some regs ->
  exists p',
    _extend_w_registers m seqs (Some p) mask c =
      Ok (map (fun s => regs ++ s) seqs, Some p', padded_mask m mask,
          padded_cond m c) /\
    map (fun pb => map (skipn (Z.to_nat (num_registers m)))
                     (skipn (Z.to_nat (num_registers m)) pb)) p' = p.
Proof.
  intros H Hregs. unfold _extend_w_registers, padded_mask, padded_cond.
  destruct (Z.eqb_spec (num_registers m) 0); [contradiction|].
  rewrite Hregs. simpl. eexists. split; [reflexivity|].
  rewrite !map_map. apply map_fix. intros pb.
  rewrite map_app, skipn_prefix by now rewrite length_map, repeat_length.
  apply undo_prepend. apply repeat_length.
Qed.


Lemma nth_error_map_some {A B : Type} (f : A -> B) l i y :
  nth_error (map f l) i = Some y ->
  exists x, nth_error l i = Some x /\ y = f x.
Proof.
  rewrite nth_error_map. destruct (nth_error l i) as [x|]; [|discriminate].
  intros [= <-]. eauto.
Qed.

Lemma masked_tok_extend r regs seqs (mask : Mask) :
  length regs = r -> masked_tok seqs mask ->
  masked_tok (map (fun s => regs ++ s) seqs)
             (map (fun k => repeat true r ++ k) mask).
Proof.
  intros Hlen H b i xs ms v Hx Hm Hv Hi.
  apply nth_error_map_some in Hx. destruct Hx as [xs0 [Hx ->]].
  apply nth_error_map_some in Hm. destruct Hm as [ms0 [Hm ->]].
  destruct (Nat.ltb_spec i r) as [Hlt|Hge].
  - rewrite nth_error_app1 in Hi by now rewrite repeat_length.
    rewrite nth_error_repeat in Hi by exact Hlt. discriminate.
  - rewrite nth_error_app2 in Hi by now rewrite repeat_length.
    rewrite nth_error_app2 in Hv by lia.
    rewrite repeat_length in Hi. rewrite Hlen in Hv.
    exact (H b (i - r)%nat xs0 ms0 v Hx Hm Hv Hi).
Qed.

Lemma masked_tok_undo r seqs (mask : Mask) :
  masked_tok seqs (map (fun k => repeat true r ++ k) mask) ->
  masked_tok (map (skipn r) seqs) mask.
Proof.
  intros H b i xs ms v Hx Hm Hv Hi.
  apply nth_error_map_some in Hx. destruct Hx as [xs0 [Hx ->]].
  rewrite nth_error_skipn in Hv.
  apply (H b (r + i)%nat xs0 (repeat true r ++ ms) v Hx); auto.
  - rewrite nth_error_map, Hm. reflexivity.
  - rewrite nth_error_app2 by (rewrite repeat_length; lia).
    rewrite repeat_length. replace (r + i - r)%nat with i by lia. exact Hi.
Qed.

Lemma masked_pair_undo r p (mask : Mask) :
  masked_pair p (map (fun k => repeat true r ++ k) mask) ->
  masked_pair (map (fun pb => map (skipn r) (skipn r pb)) p) mask.
Proof.
  intros H b i j pb ms row cell mi mj Hp Hm Hrow Hcell Hi Hj Hf.
  apply nth_error_map_some in Hp. destruct Hp as [pb0 [Hp ->]].
  apply nth_error_map_some in Hrow. destruct Hrow as [row0 [Hrow ->]].
  rewrite nth_error_skipn in Hrow, Hcell.
  assert (Hk : forall k mk, nth_error ms k = Some mk ->
             nth_error (repeat true r ++ ms) (r + k) = Some mk).
  { intros k mk Hk. rewrite nth_error_app2 by (rewrite repeat_length; lia).
    rewrite repeat_length. replace (r + k - r)%nat with k by lia. exact Hk. }
  apply (H b (r + i)%nat (r + j)%nat pb0 (repeat true r ++ ms) row0 cell mi mj);
    auto.
  rewrite nth_error_map, Hm. reflexivity.
Qed.

End Registers.

(** ** The forward pass up to the decoder *)

Section Trunk.
Context {SC : Scalar}.
Import ProteinTransformerAF3.

(* a computation with calls logged before it *)
Definition prefixed {A : Type} (t : list Event) (c : M A) : M A :=
  (t ++ log c, outcome c).

Lemma bind_value {A B : Type} t (a : A) (k : A -> M B) :
  bind (t, Ok a) k = prefixed t (k a).
Proof. unfold bind, prefixed, log, outcome. destruct (k a); reflexivity. Qed.

Lemma bind_emit {B : Type} e (k : unit -> M B) :
  bind (emit e) k = prefixed [e] (k tt).
Proof. apply bind_value. Qed.

Lemma bind_lift_ok {A B : Type} (a : A) (k : A -> M B) : bind (lift (Ok a)) k = k a.
Proof. unfold bind, lift. destruct (k a); reflexivity. Qed.

Lemma bind_ret {A B : Type} (a : A) (k : A -> M B) : bind (ret a) k = k a.
Proof. unfold bind, ret. destruct (k a); reflexivity. Qed.

Lemma prefixed_nil {A : Type} (c : M A) : prefixed [] c = c.
Proof. destruct c; reflexivity. Qed.

Lemma prefixed_prefixed {A : Type} t1 t2 (c : M A) :
  prefixed t1 (prefixed t2 c) = prefixed (t1 ++ t2) c.
Proof. unfold prefixed. simpl. now rewrite app_assoc. Qed.

Lemma bind_prefixed {A B : Type} t (c : M A) (k : A -> M B) :
  bind (prefixed t c) k = prefixed t (bind c k).
Proof.
  destruct c as [t' [a|e]]; unfold prefixed, bind, log, outcome; simpl.
  - destruct (k a). simpl. now rewrite app_assoc.
  - reflexivity.
Qed.

(** The conditioning tensor: the factory, then the two transitions. *)
Definition conditioning (m : t) (batch_nn : Batch) : Tok :=
  Transition.forward (transition_c_2 m)
    (Transition.forward (transition_c_1 m) (cond_factory m batch_nn)
       (mask batch_nn))
    (mask batch_nn).

(** The token tensor before the registers are added. *)
Definition initial_seqs (m : t) (batch_nn : Batch) : Tok :=
  mul_mask
    (tok_add
       (mul_mask
          (on_tok (Linear_forward (linear_3d_embed m))
             (mul_mask (x_t batch_nn) (mask batch_nn)))
          (mask batch_nn))
       (init_repr_factory m batch_nn))
    (mask batch_nn).

(** The pair tensor before the registers are added. *)
Definition initial_pair (m : t) (batch_nn : Batch) : option Pair :=
  if use_attn_pair_bias m then
    match pair_repr_builder m with
    | Some b => Some (PairReprBuilder.forward b batch_nn)
    | None => None
    end
  else None.

(** The calls that precede the loop. *)
Definition prologue (m : t) : list Event :=
  [EvCondFactory; EvTransitionC 1; EvTransitionC 2; EvInitReprFactory]
  ++ (if use_attn_pair_bias m then [EvPairReprBuilder] else []).

(** What the loop logs during a forward pass. *)
Definition trunk_event (m : t) (batch_nn : Batch) (e : Event) : Prop :=
  match e with
  | EvBlock _ _ p c mask' =>
      c = padded_cond m (conditioning m batch_nn) /\
      mask' = padded_mask m (mask batch_nn) /\
      (p = None <-> use_attn_pair_bias m = false)
  | EvPairUpdate _ => True
  | _ => False
  end.

Lemma forward_trunk_prefix m batch_nn :
  wf m ->
  forward_trunk m batch_nn =
  prefixed (prologue m)
    (bind (lift (_extend_w_registers m (initial_seqs m batch_nn)
                   (initial_pair m batch_nn)
                   (mask batch_nn) (conditioning m batch_nn)))
       (fun '(seqs, pair_rep, mask, c) =>
          bind (forward_loop m (range (nlayers m)) seqs pair_rep c mask)
            (fun '(seqs, pair_rep) => lift (_undo_registers m seqs pair_rep mask)))).
Proof.
  intros Hwf. unfold forward_trunk, prologue, initial_pair.
  rewrite !bind_emit, !prefixed_prefixed.
  fold (conditioning m batch_nn). fold (initial_seqs m batch_nn).
  destruct (use_attn_pair_bias m) eqn:Hb.
  - destruct (pair_repr_builder m) as [b|] eqn:Hbld;
      [|exfalso; now apply (wf_builder _ Hwf)].
    simpl getattr. rewrite bind_lift_ok, bind_emit, bind_prefixed, bind_ret.
    rewrite prefixed_prefixed. reflexivity.
  - rewrite bind_ret. reflexivity.
Qed.

Lemma forward_trunk_raises m batch_nn :
  wf m -> use_attn_pair_bias m = false -> num_registers m <> 0 ->
  forward_trunk m batch_nn = (prologue m, Raise AttributeError).
Proof.
  intros Hwf Hb Hr. rewrite forward_trunk_prefix by exact Hwf.
  unfold initial_pair. rewrite Hb, extend_absent_pair by exact Hr.
  unfold prefixed. simpl. now rewrite app_nil_r.
Qed.

Lemma forward_trunk_ok m batch_nn :
  wf m -> use_attn_pair_bias m = true \/ num_registers m = 0 ->
  exists seqs pair_rep tr,
    forward_trunk m batch_nn =
      (prologue m ++ tr, Ok (seqs, pair_rep, mask batch_nn)) /\
    masked_tok seqs (mask batch_nn) /\
    pair_updates tr = filter (fires m) (range (nlayers m)) /\
    block_calls tr = range (nlayers m) /\
    Forall (trunk_event m batch_nn) tr /\
    (pair_rep = None <-> use_attn_pair_bias m = false) /\
    (filter (fires m) (range (nlayers m)) = [] ->
     pair_rep = initial_pair m batch_nn) /\
    (filter (fires m) (range (nlayers m)) <> [] ->
     exists p, pair_rep = Some p /\ masked_pair p (mask batch_nn)) /\
    steps tr = plan m (range (nlayers m)).
Proof.
  intros Hwf Hcfg. rewrite forward_trunk_prefix by exact Hwf.
  assert (Hrange : Forall (fun i => 0 <= i < nlayers m) (range (nlayers m))).
  { apply Forall_forall. intros i. apply in_range. }
  assert (Hinit : initial_pair m batch_nn = None <-> use_attn_pair_bias m = false).
  { unfold initial_pair. destruct (use_attn_pair_bias m) eqn:Hb.
    - destruct (pair_repr_builder m) eqn:Hbld.
      + split; discriminate.
      + exfalso. now apply (wf_builder _ Hwf).
    - tauto. }
  assert (Hupd : update_pair_repr m = true -> initial_pair m batch_nn <> None).
  { intros Hu Hn. apply Hinit in Hn. apply (wf_no_bias _ Hwf) in Hn. congruence. }
  assert (Hseqs : masked_tok (initial_seqs m batch_nn) (mask batch_nn))
    by apply mul_mask_masked.
  destruct (wf_registers _ Hwf) as [[H0 _]|[Hpos [regs [Hregs Hlen]]]].
  - (* no registers *)
    rewrite extend_zero, bind_lift_ok by exact H0.
    destruct (forward_loop_spec m (conditioning m batch_nn) (mask batch_nn)
                (range (nlayers m)) Hwf Hrange _ _ Hupd Hseqs)
      as [seqs' [pair' [tr [Hloop [Hm [Hu [Hbl [Hev [Hsame [Hmask Hnone]]]]]]]]]].
    assert (Hsteps := forward_loop_steps m (conditioning m batch_nn)
                        (mask batch_nn) _ Hwf Hrange
                        (initial_seqs m batch_nn) _ Hupd).
    rewrite Hloop in Hsteps. simpl log in Hsteps.
    exists seqs', pair', tr. rewrite Hloop, bind_value, undo_zero by exact H0.
    unfold prefixed, lift. simpl. rewrite app_nil_r.
    split; [reflexivity|]. split; [exact Hm|]. split; [exact Hu|].
    split; [exact Hbl|]. split.
    { eapply Forall_impl; [|exact Hev]. intros [] He; simpl in *; try tauto.
      unfold padded_cond, padded_mask. rewrite H0. simpl. tauto. }
    split; [tauto|]. split; [tauto|]. split; [tauto|]. exact Hsteps.
  - (* registers: the pair tensor is present *)
    destruct Hcfg as [Hb|H0]; [|lia].
    destruct (initial_pair m batch_nn) as [p0|] eqn:Hp0;
      [|destruct Hinit as [Hn _]; specialize (Hn eq_refl); congruence].
    destruct (extend_present_pair m regs (initial_seqs m batch_nn) p0
                (mask batch_nn) (conditioning m batch_nn))
      as [p0e [He Hundo]]; [lia|exact Hregs|].
    rewrite He, bind_lift_ok.
    assert (Hmask_e : padded_mask m (mask batch_nn) =
                      map (fun k => repeat true (Z.to_nat (num_registers m)) ++ k)
                          (mask batch_nn)).
    { unfold padded_mask. destruct (Z.eqb_spec (num_registers m) 0); [lia|].
      reflexivity. }
    assert (Hseqs_e : masked_tok (map (fun s => regs ++ s) (initial_seqs m batch_nn))
                        (padded_mask m (mask batch_nn))).
    { rewrite Hmask_e. now apply masked_tok_extend. }
    destruct (forward_loop_spec m (padded_cond m (conditioning m batch_nn))
                (padded_mask m (mask batch_nn))
                (range (nlayers m)) Hwf Hrange _ (Some p0e)
                ltac:(discriminate) Hseqs_e)
      as [seqs' [pair' [tr [Hloop [Hm [Hu [Hbl [Hev [Hsame [Hmask Hnone]]]]]]]]]].
    assert (Hsteps := forward_loop_steps m
                        (padded_cond m (conditioning m batch_nn))
                        (padded_mask m (mask batch_nn)) _ Hwf Hrange
                        (map (fun s => regs ++ s) (initial_seqs m batch_nn))
                        (Some p0e) ltac:(discriminate)).
    rewrite Hloop in Hsteps. simpl log in Hsteps.
    destruct pair' as [p'|].
    2:{ destruct Hnone as [_ Hn]. specialize (Hn eq_refl). discriminate. }
    exists (map (skipn (Z.to_nat (num_registers m))) seqs').
    exists (Some (map (fun pb => map (skipn (Z.to_nat (num_registers m)))
                                 (skipn (Z.to_nat (num_registers m)) pb)) p')).
    exists tr. rewrite Hloop, bind_value.
    unfold _undo_registers. destruct (Z.eqb_spec (num_registers m) 0); [lia|].
    simpl not_none. cbn [bindR]. rewrite Hmask_e at 1.
    rewrite undo_prepend by apply repeat_length.
    unfold prefixed, lift. simpl. rewrite app_nil_r.
    split; [reflexivity|].
    split. { apply masked_tok_undo. now rewrite <- Hmask_e. }
    split; [exact Hu|]. split; [exact Hbl|].
    split.
    { eapply Forall_impl; [|exact Hev]. intros [] He'; simpl in *; try tauto.
      destruct He' as [? [? Hiff]]. repeat split; auto; try congruence.
      intros Hn. apply Hiff in Hn. discriminate. }
    split. { split; [discriminate|congruence]. }
    split.
    { intros Hf. specialize (Hsame Hf). injection Hsame as ->. now rewrite Hundo. }
    split; [|exact Hsteps].
    intros Hf. destruct (Hmask Hf) as [p'' [[= <-] Hmp]].
    eexists. split; [reflexivity|].
    apply masked_pair_undo. now rewrite <- Hmask_e.
Qed.

(* whether the auxiliary head runs: the test of line 853 *)
Definition predicts_pair (m : t) : bool :=
  update_pair_repr m &&
  match num_buckets_predict_pair m with Some _ => true | None => false end.

(* the decoded coordinates of line 849 *)
Definition decoded (m : t) (seqs : Tok) (mask : Mask) : Tok :=
  mul_mask (on_tok (sequential (coors_3d_decoder m)) seqs) mask.

Lemma forward_after_trunk m batch_nn tr seqs pair_rep mask' :
  wf m ->
  forward_trunk m batch_nn = (tr, Ok (seqs, pair_rep, mask')) ->
  (pair_rep = None <-> use_attn_pair_bias m = false) ->
  if predicts_pair m then
    exists head p,
      pair_head_prediction m = Some head /\ pair_rep = Some p /\
      forward m batch_nn =
        (tr ++ [EvDecoder; EvPairHead],
         Ok {| coors_pred :=
                 mul_mask
                   (tok_add_scalar (decoded m seqs mask')
                      (mul (mean (concat (concat (concat
                              (on_pair (sequential head) p))))) zero))
                   mask';
               pair_pred := Some (on_pair (sequential head) p) |})
  else
    forward m batch_nn =
      (tr ++ [EvDecoder],
       Ok {| coors_pred := decoded m seqs mask'; pair_pred := None |}).
Proof.
  intros Hwf Htrunk Hnone. unfold forward. rewrite Htrunk, bind_value, bind_emit.
  fold (decoded m seqs mask'). fold (predicts_pair m).
  destruct (predicts_pair m) eqn:Hpp.
  - unfold predicts_pair in Hpp. apply andb_prop in Hpp. destruct Hpp as [Hu Hnb].
    destruct (pair_head_prediction m) as [head|] eqn:Hh.
    2:{ exfalso. apply (wf_head _ Hwf Hu); [|exact Hh].
        destruct (num_buckets_predict_pair m); [discriminate|discriminate]. }
    destruct pair_rep as [p|].
    2:{ destruct Hnone as [Hn _]. specialize (Hn eq_refl).
        apply (wf_no_bias _ Hwf) in Hn. congruence. }
    exists head, p. split; [reflexivity|]. split; [reflexivity|].
    simpl getattr. simpl not_none. rewrite !bind_lift_ok, bind_emit.
    rewrite !prefixed_prefixed. unfold prefixed, ret. simpl.
    now rewrite app_nil_r, <- app_assoc.
  - rewrite prefixed_prefixed. unfold prefixed, ret. simpl.
    now rewrite app_nil_r.
Qed.

Lemma forward_raises m batch_nn tr e :
  forward_trunk m batch_nn = (tr, Raise e) -> forward m batch_nn = (tr, Raise e).
Proof. intros H. unfold forward. rewrite H. reflexivity. Qed.


End Trunk.

(** ** The forward pass *)

Section Forward.
Context {SC : Scalar}.
Import ProteinTransformerAF3.

(** The forward pass reaches the blocks: there is a pair tensor to extend,
    or there are no registers. *)
Definition runs (m : t) : Prop :=
  use_attn_pair_bias m = true \/ num_registers m = 0.

Lemma runs_dec m : runs m \/ (use_attn_pair_bias m = false /\ num_registers m <> 0).
Proof.
  unfold runs. destruct (use_attn_pair_bias m); [auto|].
  destruct (Z.eq_dec (num_registers m) 0); auto.
Qed.

(** The result of a completed forward pass, from the trunk output. *)
Definition completes (m : t) (batch_nn : Batch) (seqs : Tok)
    (pair_rep : option Pair) (tr : list Event) : Prop :=
  if predicts_pair m then
    exists head p,
      pair_head_prediction m = Some head /\ pair_rep = Some p /\
      forward m batch_nn =
        ((prologue m ++ tr) ++ [EvDecoder; EvPairHead],
         Ok {| coors_pred :=
                 mul_mask
                   (tok_add_scalar (decoded m seqs (mask batch_nn))
                      (mul (mean (concat (concat (concat
                              (on_pair (sequential head) p))))) zero))
                   (mask batch_nn);
               pair_pred := Some (on_pair (sequential head) p) |})
  else
    forward m batch_nn =
      ((prologue m ++ tr) ++ [EvDecoder],
       Ok {| coors_pred := decoded m seqs (mask batch_nn); pair_pred := None |}).

(** Every forward pass of a constructed object either completes, with the
    trunk output and the log described, or stops at the register extension. *)
Lemma forward_cases m batch_nn :
  wf m ->
  (runs m /\
   exists seqs pair_rep tr,
     forward_trunk m batch_nn =
       (prologue m ++ tr, Ok (seqs, pair_rep, mask batch_nn)) /\
     completes m batch_nn seqs pair_rep tr /\
     masked_tok seqs (mask batch_nn) /\
     pair_updates tr = filter (fires m) (range (nlayers m)) /\
     block_calls tr = range (nlayers m) /\
     Forall (trunk_event m batch_nn) tr /\
     (pair_rep = None <-> use_attn_pair_bias m = false) /\
     (pair_updates tr = [] -> pair_rep = initial_pair m batch_nn) /\
     (pair_updates tr <> [] ->
      exists p, pair_rep = Some p /\ masked_pair p (mask batch_nn)) /\
     steps tr = plan m (range (nlayers m)))
  \/
  (use_attn_pair_bias m = false /\ num_registers m <> 0 /\
   update_pair_repr m = false /\
   forward_trunk m batch_nn = (prologue m, Raise AttributeError) /\
   forward m batch_nn = (prologue m, Raise AttributeError)).
Proof.
  intros Hwf. destruct (runs_dec m) as [Hr|[Hb Hn]].
  - left. split; [exact Hr|].
    destruct (forward_trunk_ok m batch_nn Hwf Hr)
      as [seqs [pair_rep [tr [Ht [Hm [Hu [Hbl [Hev [Hnone [Hsame [Hmask Hsteps]]]]]]]]]]].
    exists seqs, pair_rep, tr. rewrite Hu.
    split; [exact Ht|].
    split; [exact (forward_after_trunk m batch_nn _ _ _ _ Hwf Ht Hnone)|].
    tauto.
  - right. repeat (split; [assumption|]).
    split; [now apply (wf_no_bias _ Hwf)|].
    assert (Ht := forward_trunk_raises m batch_nn Hwf Hb Hn).
    split; [exact Ht|]. now apply forward_raises.
Qed.

Lemma pair_updates_prologue m : pair_updates (prologue m) = [].
Proof. unfold prologue. destruct (use_attn_pair_bias m); reflexivity. Qed.

Lemma block_calls_prologue m : block_calls (prologue m) = [].
Proof. unfold prologue. destruct (use_attn_pair_bias m); reflexivity. Qed.

(** The log of a forward pass: the prologue, the loop, the decoder and head. *)
Lemma forward_log m batch_nn :
  wf m ->
  exists tr suffix,
    log (forward m batch_nn) = prologue m ++ tr ++ suffix /\
    Forall (trunk_event m batch_nn) tr /\
    pair_updates tr = filter (fires m) (range (nlayers m)) /\
    (runs m -> block_calls tr = range (nlayers m)) /\
    (suffix = [] \/ suffix = [EvDecoder] \/ suffix = [EvDecoder; EvPairHead]) /\
    (In EvPairHead suffix <-> runs m /\ predicts_pair m = true) /\
    (runs m -> steps tr = plan m (range (nlayers m))).
Proof.
  intros Hwf. destruct (forward_cases m batch_nn Hwf)
    as [[Hr [seqs [pair_rep [tr [Ht [Hc [Hm [Hu [Hbl [Hev [_ [_ [_ Hsteps]]]]]]]]]]]]]
       |[Hb [Hn [Hup [Ht Hf]]]]].
  - unfold completes in Hc. destruct (predicts_pair m) eqn:Hpp.
    + destruct Hc as [head [p [_ [_ Hf]]]].
      exists tr, [EvDecoder; EvPairHead]. rewrite Hf. simpl log.
      rewrite <- app_assoc.
      split; [reflexivity|]. split; [exact Hev|]. split; [exact Hu|].
      split; [auto|]. split; [auto|]. simpl. tauto.
    + exists tr, [EvDecoder]. rewrite Hc. simpl log.
      rewrite <- app_assoc.
      split; [reflexivity|]. split; [exact Hev|]. split; [exact Hu|].
      split; [auto|]. split; [auto|]. simpl.
      split; [|auto].
      split; [intros [Hd|[]]; discriminate|intros [_ Hd]; discriminate].
  - exists [], []. rewrite Hf. simpl.
    split; [now rewrite app_nil_r|]. split; [constructor|].
    split.
    { unfold fires. rewrite Hup. simpl. now induction (range (nlayers m)). }
    split. { intros [Hr|Hr]; congruence. }
    split; [auto|].
    split; [|intros [Hr|Hr]; congruence].
    split; [intros []|]. intros [[Hr|Hr] _]; congruence.
Qed.

End Forward.

(** ** A small network over the integers *)

Module Demo.
Import ProteinTransformerAF3.

(* stands for a layer normalisation with zero shift: it maps the zero
   vector to itself *)
Definition ln : @Vec Scalar_Z -> @Vec Scalar_Z := fun v => v.

(* stands for SwiGLU: it halves the width *)
Definition swiglu : @Vec Scalar_Z -> @Vec Scalar_Z :=
  fun v => firstn (Nat.div2 (length v)) v.

(* stands for an adaptive layer norm or an adaptive output scale *)
Definition adaptive : @Tok Scalar_Z -> @Tok Scalar_Z -> Mask -> @Tok Scalar_Z :=
  fun x _ _ => x.

Definition transition_params : Transition.Params :=
  {| Transition.p_ln := ln;
     Transition.p_swish_w := fun _ _ => 1;
     Transition.p_swiglu := swiglu;
     Transition.p_out_w := fun _ _ => 1 |}.

Definition block_params : MultiheadAttnAndTransition.Params :=
  {| MultiheadAttnAndTransition.p_mhba :=
       {| MultiHeadBiasedAttentionADALN_MM.p_adaln := adaptive;
          MultiHeadBiasedAttentionADALN_MM.p_mha :=
            fun x _ _ => on_tok (map (fun a => a + 7)) x;
          MultiHeadBiasedAttentionADALN_MM.p_scale_output := adaptive |};
     MultiheadAttnAndTransition.p_transition :=
       {| TransitionADALN.p_adaln := adaptive;
          TransitionADALN.p_transition := transition_params;
          TransitionADALN.p_scale_output := adaptive |} |}.

Definition pair_update_params : PairReprUpdate.Params :=
  {| PairReprUpdate.p_layer_norm_in := ln;
     PairReprUpdate.p_linear_x_w := fun o _ => Z.of_nat (o + 1);
     PairReprUpdate.p_tri_mult_out := fun p _ => p;
     PairReprUpdate.p_tri_mult_in := fun p _ => p;
     PairReprUpdate.p_transition_out := fun p _ => p |}.

(* a feature tensor of ones, one vector of width d per position *)
Definition ones_tok (d : nat) (b : @Batch Scalar_Z) : @Tok Scalar_Z :=
  map (map (fun _ => repeat 1 d)) (mask b).

Definition ones_pair (d : nat) (b : @Batch Scalar_Z) : @Pair Scalar_Z :=
  map (fun k => map (fun _ => map (fun _ => repeat 1 d) k) k) (mask b).

Definition params : Params :=
  {| p_registers := fun _ _ => 3;
     p_linear_3d_embed := fun _ _ => 1;
     p_init_repr_factory := ones_tok 2;
     p_cond_factory := ones_tok 1;
     p_transition_c_1 := transition_params;
     p_transition_c_2 := transition_params;
     p_pair_repr_builder :=
       {| PairReprBuilder.p_init_repr_factory := ones_pair 1;
          PairReprBuilder.p_cond_factory := ones_pair 1;
          PairReprBuilder.p_adaln := fun p _ _ => p |};
     p_transformer_layers := fun _ => block_params;
     p_pair_update_layers := fun _ => pair_update_params;
     p_pair_head_ln := ln;
     p_pair_head_w := fun _ _ => 1;
     p_pair_head_b := fun _ => 1;
     p_decoder_ln := ln;
     p_decoder_w := fun _ _ => 1 |}.

(* token_dim 2, pair_repr_dim 1, dim_cond 1, one head *)
Definition kwargs (nlayers : Z) (use_attn_pair_bias : bool)
    (update_pair_repr : option bool) (num_buckets_predict_pair : option nat)
    (num_registers : option Z) : Kwargs :=
  {| kw_use_attn_pair_bias := use_attn_pair_bias;
     kw_nlayers := nlayers;
     kw_token_dim := 2;
     kw_pair_repr_dim := 1;
     kw_dim_cond := 1;
     kw_nheads := 1;
     kw_residual_mha := true;
     kw_residual_transition := true;
     kw_parallel_mha_transition := true;
     kw_feats_pair_cond := None;
     kw_update_pair_repr := update_pair_repr;
     kw_update_pair_repr_every_n := Some 2;
     kw_use_tri_mult := Some true;
     kw_use_qkln := None;
     kw_num_buckets_predict_pair := num_buckets_predict_pair;
     kw_num_registers := num_registers |}.

(* one sample of two residues, the second one padding *)
Definition batch : @Batch Scalar_Z :=
  {| mask := [[true; false]];
     x_t := [[[1; 2; 3]; [4; 5; 6]]];
     fields := [] |}.

(* an object with no layers, for the case that the constructor raises *)
Definition unbuilt : t :=
  {| use_attn_pair_bias := false;
     nlayers := 0;
     token_dim := 0;
     pair_repr_dim := 0;
     update_pair_repr := false;
     update_pair_repr_every_n := 2;
     use_tri_mult := false;
     use_qkln := false;
     num_buckets_predict_pair := None;
     num_registers := 0;
     registers := None;
     linear_3d_embed := Linear_init 3 0 false (fun _ _ => 1) (fun _ => 0);
     init_repr_factory := ones_tok 0;
     cond_factory := ones_tok 0;
     transition_c_1 := Transition.__init__ 0 2 false transition_params;
     transition_c_2 := Transition.__init__ 0 2 false transition_params;
     pair_repr_builder := None;
     transformer_layers := [];
     pair_update_layers := None;
     pair_head_prediction := None;
     coors_3d_decoder := (ln, Linear_init 0 3 false (fun _ _ => 1) (fun _ => 0)) |}.

(* the object that the constructor returns for the keyword arguments *)
Definition object (kw : Kwargs) : t :=
  match __init__ kw params with
  | Ok m => m
  | Raise _ => unbuilt
  end.

(* the dictionary that its forward pass returns on [batch] *)
Definition output (kw : Kwargs) : Output :=
  match outcome (forward (object kw) batch) with
  | Ok out => out
  | Raise _ => {| coors_pred := []; pair_pred := None |}
  end.

End Demo.

(** * The claims *)

Section Claims.
Context {SC : Scalar}.
Import ProteinTransformerAF3.

(** C4. A block constructed with parallel_mha_transition, residual_mha and
    residual_transition all True stores residual_transition = False, and on
    every call its transition sub-path returns the masked transition output
    with no copy of its input added; the block output is the masked sum of
    the two sub-paths. *)
Theorem C4_parallel_residual_exclusivity
    dim_token dim_pair nheads dim_cond use_attn_pair_bias use_qkln
    expansion_factor p blk :
  MultiheadAttnAndTransition.__init__ dim_token dim_pair nheads dim_cond
    true true true use_attn_pair_bias use_qkln expansion_factor p = Ok blk ->
  MultiheadAttnAndTransition.residual_transition blk = false /\
  MultiheadAttnAndTransition.residual_mha blk = true /\
  MultiheadAttnAndTransition.parallel blk = true /\
  (forall x cond mask,
     MultiheadAttnAndTransition._apply_transition blk x cond mask =
     mul_mask (TransitionADALN.forward
                 (MultiheadAttnAndTransition.transition blk) x cond mask) mask) /\
  (forall x pair_rep cond mask,
     MultiheadAttnAndTransition.forward blk x pair_rep cond mask =
     mul_mask
       (tok_add
          (MultiheadAttnAndTransition._apply_mha blk (mul_mask x mask)
             pair_rep cond mask)
          (mul_mask (TransitionADALN.forward
                       (MultiheadAttnAndTransition.transition blk)
                       (mul_mask x mask) cond mask) mask))
       mask).
Proof.
  unfold MultiheadAttnAndTransition.__init__. simpl.
  destruct (MultiHeadBiasedAttentionADALN_MM.__init__ _ _ _ _ _ _) as [a|e];
    [|discriminate].
  intros [= <-]. simpl.
  repeat split; reflexivity.
Qed.

(** C10. A num_registers argument that is missing, None or not positive
    gives num_registers = 0 and registers = None; _extend_w_registers and
    _undo_registers then return their arguments, whatever they are; and the
    object is the one that num_registers = 0 gives. *)
Theorem C10_nonpositive_registers kwargs p m :
  (kw_num_registers kwargs = None \/
   exists r, kw_num_registers kwargs = Some r /\ r <= 0) ->
  __init__ kwargs p = Ok m ->
  num_registers m = 0 /\ registers m = None /\
  (forall seqs pair_rep mask c,
     _extend_w_registers m seqs pair_rep mask c = Ok (seqs, pair_rep, mask, c)) /\
  (forall seqs pair_rep mask,
     _undo_registers m seqs pair_rep mask = Ok (seqs, pair_rep, mask)) /\
  __init__ (with_num_registers kwargs (Some 0)) p = Ok m.
Proof.
  intros Hr Hinit.
  assert (H0 : num_registers m = 0).
  { rewrite (if_num_registers _ _ _ (init_inv _ _ _ Hinit)).
    destruct Hr as [->|[r [-> Hr]]]; [reflexivity|].
    destruct (Z.leb_spec r 0); [reflexivity|lia]. }
  split; [exact H0|].
  split. { rewrite (if_registers _ _ _ (init_inv _ _ _ Hinit)), H0. reflexivity. }
  split. { intros. now apply extend_zero. }
  split. { intros. now apply undo_zero. }
  rewrite <- Hinit. unfold __init__. simpl.
  destruct Hr as [->|[r [-> Hr]]]; [reflexivity|].
  destruct (Z.leb_spec r 0); [reflexivity|lia].
Qed.


(** C3. During a forward pass the pair update runs after block [i] exactly
    when update_pair_repr is set on the object, [0 <= i < nlayers - 1] and
    [i % update_pair_repr_every_n = 0]; the blocks run in order, each
    followed at once by its update ([plan]); with nlayers = 6 and
    update_pair_repr_every_n = 2 the updates run at 0, 2 and 4, never at 5,
    for every batch. *)
Theorem C3_pair_update_schedule kwargs p m batch_nn :
  __init__ kwargs p = Ok m ->
  (forall i,
     In (EvPairUpdate i) (log (forward m batch_nn)) <->
     update_pair_repr m = true /\ 0 <= i /\ i < nlayers m - 1 /\
     i mod update_pair_repr_every_n m = 0) /\
  pair_updates (log (forward m batch_nn)) = filter (fires m) (range (nlayers m)) /\
  (update_pair_repr m = true ->
   steps (log (forward m batch_nn)) = plan m (range (nlayers m))) /\
  (nlayers m = 6 -> update_pair_repr_every_n m = 2 ->
   update_pair_repr m = true ->
   pair_updates (log (forward m batch_nn)) = [0; 2; 4] /\
   ~ In (EvPairUpdate 5) (log (forward m batch_nn))).
Proof.
  intros Hinit. assert (Hwf := init_wf _ _ _ Hinit).
  assert (Hupd : pair_updates (log (forward m batch_nn)) =
                 filter (fires m) (range (nlayers m))).
  { destruct (forward_log m batch_nn Hwf) as [tr [sfx [Hlog [_ [Hu [_ [Hs _]]]]]]].
    rewrite Hlog, !pair_updates_app, pair_updates_prologue, Hu.
    destruct Hs as [->|[->| ->]]; simpl; now rewrite app_nil_r. }
  assert (Hin : forall i,
     In (EvPairUpdate i) (log (forward m batch_nn)) <->
     update_pair_repr m = true /\ 0 <= i /\ i < nlayers m - 1 /\
     i mod update_pair_repr_every_n m = 0).
  { intros i. rewrite <- in_pair_updates, Hupd, filter_In, in_range.
    unfold fires. rewrite !andb_true_iff, Z.ltb_lt, Z.eqb_eq. intuition lia. }
  split; [exact Hin|]. split; [exact Hupd|].
  split.
  { intros Hu.
    destruct (forward_log m batch_nn Hwf)
      as [tr [sfx [Hlog [_ [_ [_ [Hs [_ Hsteps]]]]]]]].
    assert (Hr : runs m).
    { left. destruct (use_attn_pair_bias m) eqn:Hb; [reflexivity|].
      rewrite (wf_no_bias _ Hwf Hb) in Hu. discriminate. }
    rewrite Hlog, !steps_app, (Hsteps Hr). unfold prologue.
    destruct Hs as [->|[->| ->]]; destruct (use_attn_pair_bias m);
      simpl; now rewrite app_nil_r. }
  intros Hn He Hu. split.
  - rewrite Hupd. unfold fires. rewrite Hn, He, Hu. reflexivity.
  - rewrite Hin, Hn. lia.
Qed.














End Claims.

(** ** Registers without a pair tensor *)

Section AbsentPair.
Context {SC : Scalar}.
Import ProteinTransformerAF3.

Lemma fires_off m l : update_pair_repr m = false -> filter (fires m) l = [].
Proof.
  intros H. induction l as [|i l IH]; [reflexivity|].
  simpl. unfold fires at 1. rewrite H. simpl. exact IH.
Qed.

(** Without pair bias the constructor sets update_pair_repr to False and
    builds neither a pair builder nor pair update layers. *)
Lemma no_pair_bias_construction kwargs p m :
  __init__ kwargs p = Ok m -> kw_use_attn_pair_bias kwargs = false ->
  use_attn_pair_bias m = false /\ update_pair_repr m = false /\
  pair_repr_builder m = None /\ pair_update_layers m = None /\
  pair_head_prediction m = None.
Proof.
  intros Hinit Hb.
  destruct (init_inv _ _ _ Hinit) as [Hb' _ Hu _ _ _ _ _ _ _ Hbld _ Hul Hh].
  rewrite Hb in *. simpl in Hu. rewrite Hu in *. auto.
Qed.

(** Without pair bias and without registers the forward pass completes:
    it calls neither the pair builder nor the pair updater nor the auxiliary
    head, and every block receives None as its pair tensor. *)
Lemma no_pair_bias_forward kwargs p m batch_nn :
  __init__ kwargs p = Ok m -> kw_use_attn_pair_bias kwargs = false ->
  num_registers m = 0 ->
  exists tr seqs,
    forward m batch_nn =
      (tr, Ok {| coors_pred := decoded m seqs (mask batch_nn);
                 pair_pred := None |}) /\
    masked_tok seqs (mask batch_nn) /\
    ~ In EvPairReprBuilder tr /\ ~ In EvPairHead tr /\
    (forall i, ~ In (EvPairUpdate i) tr) /\
    block_calls tr = range (nlayers m) /\
    (forall i seqs' pair_rep c mask',
       In (EvBlock i seqs' pair_rep c mask') tr ->
       pair_rep = None /\ c = conditioning m batch_nn /\ mask' = mask batch_nn).
Proof.
  intros Hinit Hkb H0. assert (Hwf := init_wf _ _ _ Hinit).
  destruct (no_pair_bias_construction _ _ _ Hinit Hkb) as [Hb [Hu _]].
  destruct (forward_cases m batch_nn Hwf)
    as [[_ [seqs [pair_rep [tr [Ht [Hc [Hm [Hpu [Hbl [Hev _]]]]]]]]]]|[_ [Hn _]]];
    [|contradiction].
  unfold completes, predicts_pair in Hc. rewrite Hu in Hc. cbn [andb] in Hc.
  assert (Hnone : filter (fires m) (range (nlayers m)) = []).
  { now apply fires_off. }
  rewrite Hnone in Hpu.
  assert (Hin : forall e, In e ((prologue m ++ tr) ++ [EvDecoder]) ->
            In e [EvCondFactory; EvTransitionC 1; EvTransitionC 2;
                  EvInitReprFactory; EvDecoder] \/ In e tr).
  { intros e He. unfold prologue in He. rewrite Hb in He.
    rewrite !in_app_iff in He. simpl in *. tauto. }
  rewrite Forall_forall in Hev.
  exists ((prologue m ++ tr) ++ [EvDecoder]), seqs.
  split; [exact Hc|]. split; [exact Hm|].
  split. { intros He. apply Hin in He. destruct He as [He|He].
           - simpl in He. intuition discriminate.
           - apply Hev in He. exact He. }
  split. { intros He. apply Hin in He. destruct He as [He|He].
           - simpl in He. intuition discriminate.
           - apply Hev in He. exact He. }
  split. { intros i He. apply Hin in He. destruct He as [He|He].
           - simpl in He. intuition discriminate.
           - apply in_pair_updates in He. rewrite Hpu in He. exact He. }
  split. { rewrite !block_calls_app, block_calls_prologue, Hbl. simpl.
           now rewrite app_nil_r. }
  intros i seqs' pair_rep' c mask' He. apply Hin in He. destruct He as [He|He].
  - simpl in He. intuition discriminate.
  - apply Hev in He. simpl in He. destruct He as [-> [-> Hp]].
    unfold padded_cond, padded_mask. rewrite H0. simpl.
    repeat split. now apply Hp.
Qed.

(** With registers and no pair bias the forward pass stops in
    _extend_w_registers, at [pair.shape], before any block has run. *)
Lemma registers_without_pair_bias kwargs p m batch_nn :
  __init__ kwargs p = Ok m -> kw_use_attn_pair_bias kwargs = false ->
  num_registers m <> 0 ->
  _extend_w_registers m (initial_seqs m batch_nn) None (mask batch_nn)
    (conditioning m batch_nn) = Raise AttributeError /\
  forward m batch_nn =
    ([EvCondFactory; EvTransitionC 1; EvTransitionC 2; EvInitReprFactory],
     Raise AttributeError).
Proof.
  intros Hinit Hkb Hn. assert (Hwf := init_wf _ _ _ Hinit).
  destruct (no_pair_bias_construction _ _ _ Hinit Hkb) as [Hb _].
  split; [now apply extend_absent_pair|].
  destruct (forward_cases m batch_nn Hwf)
    as [[[Hr|Hr] _]|[_ [_ [_ [_ Hf]]]]]; try congruence.
  rewrite Hf. unfold prologue. now rewrite Hb.
Qed.

End AbsentPair.

(** * The claims on the demonstration network *)

Module Runs.
Import ProteinTransformerAF3.

Definition is_ok {A : Type} (r : result A) : bool :=
  match r with Ok _ => true | Raise _ => false end.


(** A demonstration network that can be built is [Demo.object]. *)
Lemma built kw :
  is_ok (__init__ kw Demo.params) = true ->
  __init__ kw Demo.params = Ok (Demo.object kw).
Proof.
  unfold Demo.object. destruct (__init__ kw Demo.params); [reflexivity|].
  discriminate.
Qed.

(** A forward pass of a demonstration network that returns, returns
    [Demo.output]. *)
Lemma ran kw :
  is_ok (outcome (forward (Demo.object kw) Demo.batch)) = true ->
  forward (Demo.object kw) Demo.batch =
    (log (forward (Demo.object kw) Demo.batch), Ok (Demo.output kw)).
Proof.
  unfold Demo.output.
  destruct (forward (Demo.object kw) Demo.batch) as [tr [out|e]];
    [reflexivity|discriminate].
Qed.


(** The hypothesis of C4 holds for a block of the demonstration network. *)
Lemma C4_witness :
  exists blk,
    MultiheadAttnAndTransition.__init__ 2 1 1 1 true true true true false 4
      Demo.block_params = Ok blk /\
    MultiheadAttnAndTransition.residual_transition blk = false.
Proof.
  eexists. split; [reflexivity|].
  exact (proj1 (C4_parallel_residual_exclusivity
                  2 1 1 1 true false 4 Demo.block_params _ eq_refl)).
Defined.

(** num_registers = -3 is normalised to no registers. *)
Lemma C10_witness :
  exists m,
    __init__ (Demo.kwargs 3 true (Some true) (Some 2%nat) (Some (-3)))
      Demo.params = Ok m /\
    num_registers m = 0 /\ registers m = None.
Proof.
  eexists. split; [reflexivity|].
  destruct (C10_nonpositive_registers
              (Demo.kwargs 3 true (Some true) (Some 2%nat) (Some (-3)))
              Demo.params _
              (or_intror (ex_intro _ (-3) (conj eq_refl (ltac:(lia) : -3 <= 0))))
              eq_refl) as [H0 [Hr _]].
  split; [exact H0|exact Hr].
Defined.

(** Six blocks, an update every second block: updates after 0, 2 and 4. *)
Lemma C3_witness :
  exists m,
    __init__ (Demo.kwargs 6 true (Some true) None None) Demo.params = Ok m /\
    pair_updates (log (forward m Demo.batch)) = [0; 2; 4] /\
    ~ In (EvPairUpdate 5) (log (forward m Demo.batch)).
Proof.
  eexists. split; [reflexivity|].
  destruct (C3_pair_update_schedule
              (Demo.kwargs 6 true (Some true) None None) Demo.params _
              Demo.batch eq_refl) as [_ [_ [_ H]]].
  exact (H eq_refl eq_refl eq_refl).
Defined.








(** C5 at the failing input: one register, pair bias off.  The pair tensor
    is None, _extend_w_registers raises AttributeError and so does the
    forward pass, after the feature factories and before any block. *)
Lemma C5_registers_without_pair_bias :
  exists m,
    __init__ (Demo.kwargs 3 false None None (Some 1)) Demo.params = Ok m /\
    initial_pair m Demo.batch = None /\
    _extend_w_registers m (initial_seqs m Demo.batch) None (mask Demo.batch)
      (conditioning m Demo.batch) = Raise AttributeError /\
    forward m Demo.batch =
      ([EvCondFactory; EvTransitionC 1; EvTransitionC 2; EvInitReprFactory],
       Raise AttributeError).
Proof.
  eexists. split; [reflexivity|]. split; [reflexivity|].
  apply (registers_without_pair_bias
           (Demo.kwargs 3 false None None (Some 1)) Demo.params _ Demo.batch
           eq_refl eq_refl).
  discriminate.
Qed.

(** C6 at the failing input: pair bias off, pair updates requested, one
    register.  The constructor sets update_pair_repr to False; the forward
    pass raises in _extend_w_registers and logs no block call.  Without
    registers the same configuration completes with the pair tensor None. *)
Lemma C6_no_pair_bias_with_registers :
  exists m m0 tr out,
    __init__ (Demo.kwargs 3 false (Some true) None (Some 1)) Demo.params = Ok m /\
    update_pair_repr m = false /\
    outcome (forward m Demo.batch) = Raise AttributeError /\
    block_calls (log (forward m Demo.batch)) = [] /\
    __init__ (Demo.kwargs 3 false (Some true) None None) Demo.params = Ok m0 /\
    update_pair_repr m0 = false /\
    forward m0 Demo.batch = (tr, Ok out) /\
    block_calls tr = [0; 1; 2] /\
    coors_pred out = [[[86450; 86450; 86450]; [0; 0; 0]]].
Proof.
  pose (K := Demo.kwargs 3 false (Some true) None (Some 1)).
  pose (K0 := Demo.kwargs 3 false (Some true) None None).
  exists (Demo.object K), (Demo.object K0),
         (log (forward (Demo.object K0) Demo.batch)), (Demo.output K0).
  split; [apply built; vm_compute; reflexivity|].
  split; [vm_compute; reflexivity|].
  split; [vm_compute; reflexivity|].
  split; [vm_compute; reflexivity|].
  split; [apply built; vm_compute; reflexivity|].
  split; [vm_compute; reflexivity|].
  split; [apply ran; vm_compute; reflexivity|].
  split; vm_compute; reflexivity.
Qed.

End Runs.
